(** * gdlaire: air-quality data treatment and map symbology

    A shallow embedding of the pure parts of [aqiGDL/data.py]
    ([daterange], [week_average]) and of [aqiGDL/visualization.py]
    ([p_limits], [imeca_colours], [symbology_gdf]), with the properties
    that the specification states about them.

    Conventions of the embedding:
    - a Python [float] is a binary64 number ([PrimFloat.float]), computed
      by the kernel with IEEE 754 rounding, as CPython does;
    - a [datetime] is its number of microseconds since 0001-01-01 00:00,
      a [timedelta] a signed number of microseconds; both carry the range
      checks of the [datetime] module ([OverflowError]);
    - a raised exception is a value of [result]; a loop that may run
      forever takes a fuel argument and answers [None] when it is used up;
    - a numpy array is the list of its elements, a pandas frame the list
      of its rows in row order, each row carrying its index label. *)

From Stdlib Require Import ZArith Lia PrimFloat.
From stdpp Require Import base option list numbers strings pretty gmap.

Set Warnings "-inexact-float,-clear-no-such-hyp".

#[local] Open Scope Z_scope.

(** ** Exceptions *)

Inductive exn : Set :=
| KeyError
| ValueError
| IndexError
| OverflowError
| UnboundLocalError
| AttributeError.

Inductive result (A : Type) : Type :=
| Ok (a : A)
| Raise (e : exn).

Arguments Ok {A} a.
Arguments Raise {A} e.

Definition rbind {A B : Type} (r : result A) (k : A -> result B) : result B :=
  match r with
  | Ok a => k a
  | Raise e => Raise e
  end.

Notation "x <-! r ; k" := (rbind r (fun x => k))
  (at level 100, r at next level, right associativity, only parsing).

Definition is_ok {A : Type} (r : result A) : Prop := exists a, r = Ok a.

(** ** The [datetime] module *)

Module PyDatetime.

(** Microseconds since 0001-01-01 00:00:00. *)
Definition datetime : Type := Z.
(** A signed duration in microseconds. *)
Definition timedelta : Type := Z.

Definition us_per_hour : Z := 3600 * 1000000.
Definition us_per_day : Z := 86400 * 1000000.

Definition is_leap (year : Z) : bool :=
  (year mod 4 =? 0) && (negb (year mod 100 =? 0) || (year mod 400 =? 0)).

(** Number of days before January 1st of [year]. *)
Definition days_before_year (year : Z) : Z :=
  let y := year - 1 in y * 365 + y / 4 - y / 100 + y / 400.

Definition days_in_month (year month : Z) : Z :=
  if month =? 2 then (if is_leap year then 29 else 28)
  else if (month =? 4) || (month =? 6) || (month =? 9) || (month =? 11)
       then 30 else 31.

(** Number of days in [year] before the first day of [month]. *)
Definition days_before_month (year month : Z) : Z :=
  foldr (fun m acc => days_in_month year m + acc) 0
        (seqZ 1 (month - 1)).

(** Proleptic Gregorian ordinal: 0001-01-01 is day 1. *)
Definition ymd2ord (year month day : Z) : Z :=
  days_before_year year + days_before_month year month + day.

(** [datetime(year, month, day, hour, minute)]. *)
Definition mk_datetime (year month day hour minute : Z) : datetime :=
  (ymd2ord year month day - 1) * us_per_day
  + (hour * 3600 + minute * 60) * 1000000.

(** [date.max.toordinal()], the ordinal of 9999-12-31. *)
Definition max_ordinal : Z := 3652059.

(** [datetime.max], 9999-12-31 23:59:59.999999. *)
Definition datetime_max : datetime := max_ordinal * us_per_day - 1.

Definition valid_datetime (t : datetime) : Prop := 0 <= t <= datetime_max.

(** The [.year] attribute, by the division steps of [_ord2ymd]. *)
Definition dt_year (t : datetime) : Z :=
  let n := t / us_per_day in
  let n400 := n / 146097 in
  let n := n mod 146097 in
  let n100 := n / 36524 in
  let n := n mod 36524 in
  let n4 := n / 1461 in
  let n := n mod 1461 in
  let n1 := n / 365 in
  let year := n400 * 400 + 1 + n100 * 100 + n4 * 4 + n1 in
  if (n1 =? 4) || (n100 =? 4) then year - 1 else year.

(** A [timedelta] is normalised to days, seconds and microseconds, and
    its constructor raises [OverflowError] when the days are beyond
    999999999 in magnitude. *)
Definition max_delta_days : Z := 999999999.

Definition mk_timedelta (us : Z) : result timedelta :=
  let days := us / us_per_day in
  if (- max_delta_days <=? days) && (days <=? max_delta_days)
  then Ok us else Raise OverflowError.

Definition timedelta_hours (lapse : Z) : result timedelta :=
  mk_timedelta (lapse * us_per_hour).

Definition timedelta_days (lapse : Z) : result timedelta :=
  mk_timedelta (lapse * us_per_day).

(** [datetime + timedelta]: [OverflowError] outside years 1 to 9999. *)
Definition datetime_add (t : datetime) (d : timedelta) : result datetime :=
  let r := t + d in
  if (0 <=? r) && (r <=? datetime_max) then Ok r else Raise OverflowError.

End PyDatetime.

Import PyDatetime.

(** ** [data.daterange] *)

(** The [while] loop of [daterange].  [delta] is [None] when neither
    branch of the [if]/[elif] on [interval] bound the local variable.
    Each test of the loop condition uses one unit of fuel. *)
Fixpoint daterange_loop (fuel : nat) (delta : option timedelta)
    (start_date end_date : datetime) (date_list : list datetime)
    : option (result (list datetime)) :=
  match fuel with
  | O => None
  | S fuel' =>
      if start_date <=? end_date then
        let date_list := date_list ++ [start_date] in
        match delta with
        | None => Some (Raise UnboundLocalError)
        | Some d =>
            match datetime_add start_date d with
            | Ok start_date' =>
                daterange_loop fuel' delta start_date' end_date date_list
            | Raise e => Some (Raise e)
            end
        end
      else Some (Ok date_list)
  end.

(** The step that the [if]/[elif] on [interval] binds, if any. *)
Definition daterange_delta (interval : string) (lapse : Z)
    : result (option timedelta) :=
  if String.eqb interval "hour" then
    d <-! timedelta_hours lapse; Ok (Some d)
  else if String.eqb interval "day" then
    d <-! timedelta_days lapse; Ok (Some d)
  else Ok None.

Definition daterange (fuel : nat) (start_date end_date : datetime)
    (interval : string) (lapse : Z) : option (result (list datetime)) :=
  match daterange_delta interval lapse with
  | Ok delta => daterange_loop fuel delta start_date end_date []
  | Raise e => Some (Raise e)
  end.

(** The length of one unit of [interval], for the two supported values. *)
Definition interval_us (interval : string) : Z :=
  if String.eqb interval "hour" then us_per_hour else us_per_day.

(** [start, start + d, ..., start + (n - 1) * d]. *)
Definition stepped (start d : Z) (n : nat) : list Z :=
  (fun k : nat => start + Z.of_nat k * d) <$> seq 0 n.

(** ** numpy arrays and their truth value *)

Definition ndarray : Type := list float.

(** A Python scalar behaves, in every expression below, as the array of
    one element. *)
Definition scalar (x : float) : ndarray := [x].

(** [bool(a)] for a numpy array of booleans, as numpy 1.x has it: the
    element of a one-element array, [False] (with a deprecation warning)
    for an empty one, [ValueError] ("the truth value of an array with
    more than one element is ambiguous") otherwise. *)
Definition truth (mask : list bool) : result bool :=
  match mask with
  | [] => Ok false
  | [b] => Ok b
  | _ :: _ :: _ => Raise ValueError
  end.

(** [if a <= hi]. *)
Definition test_le (a : ndarray) (hi : float) : result bool :=
  truth ((fun x => PrimFloat.leb x hi) <$> a).

(** [if lo < a]. *)
Definition test_lt (lo : float) (a : ndarray) : result bool :=
  truth ((fun x => PrimFloat.ltb lo x) <$> a).

(** [if lo < a <= hi]: the chained comparison is [lo < a and a <= hi],
    and [and] takes the truth value of its first operand. *)
Definition test_between (lo : float) (a : ndarray) (hi : float)
    : result bool :=
  b <-! test_lt lo a; if b : bool then test_le a hi else Ok false.

(** One arm of an [if]/[elif] chain whose condition may raise. *)
Definition rif {A : Type} (c : result bool) (t e : result A) : result A :=
  b <-! c; if b : bool then t else e.

(** ** [visualization.p_limits] *)

Definition limit_dict : gmap string float :=
  <["PM10" := 214%float]> (<["O3" := 0.154%float]> (<["CO" := 16.5%float]>
  (<["PM25" := 97.4%float]> (<["SO2" := 0.195%float]>
  (<["NO2" := 0.315%float]> ∅))))).

Definition p_limits (param : string) : result float :=
  match limit_dict !! param with
  | Some v => Ok v
  | None => Raise KeyError
  end.

(** The keys of [limit_dict]. *)
Definition limit_codes : list string :=
  ["PM10"; "O3"; "CO"; "PM25"; "SO2"; "NO2"]%string.

(** ** [visualization.imeca_colours] *)

Section Imeca.
#[local] Open Scope float_scope.

(** Lines 39 to 96: the index [imeca] of a concentration. *)
Definition imeca_index (param : string) (conc : ndarray) : result ndarray :=
  let imeca := scalar 0 in
  if String.eqb param "CO" then
    Ok ((fun c => c * 100 / 11) <$> conc)
  else if String.eqb param "SO2" then
    Ok ((fun c => (c / 1000) * 100 / 0.11) <$> conc)
  else if String.eqb param "NO2" then
    Ok ((fun c => (c / 1000) * 100 / 0.21) <$> conc)
  else if String.eqb param "O3" then
    let conc := (fun c => c / 1000) <$> conc in
    rif (test_le conc 0.07)
        (Ok ((fun c => 714.29 * c) <$> conc))
   (rif (test_between 0.07 conc 0.095)
        (Ok ((fun c => 2041.67 * (c - 0.071) + 51) <$> conc))
   (rif (test_between 0.095 conc 0.154)
        (Ok ((fun c => 844.83 * (c - 0.096) + 101) <$> conc))
   (rif (test_between 0.154 conc 0.204)
        (Ok ((fun c => 1000 * (c - 0.155) + 151) <$> conc))
   (rif (test_between 0.204 conc 0.404)
        (Ok ((fun c => 497.49 * (c - 0.205) + 201) <$> conc))
   (rif (test_lt 0.404 conc)
        (Ok ((fun c => 1000 * (c - 104)) <$> conc))
        (Ok imeca))))))
  else if String.eqb param "PM10" then
    rif (test_le conc 40)
        (Ok ((fun c => 1.25 * c) <$> conc))
   (rif (test_between 40 conc 75)
        (Ok ((fun c => 1.44 * (c - 41) + 51) <$> conc))
   (rif (test_between 75 conc 214)
        (Ok ((fun c => 0.355 * (c - 76) + 101) <$> conc))
   (rif (test_between 214 conc 354)
        (Ok ((fun c => 0.353 * (c - 215) + 151) <$> conc))
   (rif (test_between 354 conc 424)
        (Ok ((fun c => 1.4359 * (c - 355) + 201) <$> conc))
   (rif (test_between 424 conc 504)
        (Ok ((fun c => 1.253 * (c - 425) + 301) <$> conc))
   (rif (test_lt 504 conc)
        (Ok ((fun c => c - 104) <$> conc))
        (Ok imeca)))))))
  else Ok imeca.

(** Lines 98 to 116: the colour of an index. *)
Definition imeca_band (imeca : ndarray) : result string :=
  rif (test_le imeca 50) (Ok "#75b46f"%string)
 (rif (test_between 50 imeca 100) (Ok "#f7ff55"%string)
 (rif (test_between 100 imeca 150) (Ok "#ff9e4f"%string)
 (rif (test_between 150 imeca 200) (Ok "#db3331"%string)
 (rif (test_lt 200 imeca) (Ok "#c158b8"%string)
      (Ok "#ffffff"%string))))).

Definition imeca_colours (param : string) (conc : ndarray) : result string :=
  imeca <-! imeca_index param conc; imeca_band imeca.

End Imeca.

(** The pollutant codes that have a branch in [imeca_colours]. *)
Definition imeca_codes : list string :=
  ["CO"; "SO2"; "NO2"; "O3"; "PM10"]%string.

(** The colour of a scalar concentration; [imeca_colours_scalar] below
    shows that the call never raises on a scalar. *)
Definition scalar_colour (param : string) (c : float) : string :=
  match imeca_colours param (scalar c) with
  | Ok colour => colour
  | Raise _ => "#ffffff"
  end.

(** ** [visualization.symbology_gdf] *)

(** One row of the point dataset: its index label, its concentration,
    the two columns that [symbology_gdf] writes ([None] while the cell is
    absent), and all its other columns, geometry included, as [other]. *)
Record point (A : Type) : Type := mk_point {
  label : Z;
  other : A;
  conc : float;
  Colour : option string;
  Size : option float
}.

Arguments mk_point {A} label other conc Colour Size.
Arguments label {A} p.
Arguments other {A} p.
Arguments conc {A} p.
Arguments Colour {A} p.
Arguments Size {A} p.

Definition set_Colour {A} (c : string) (r : point A) : point A :=
  mk_point (label r) (other r) (conc r) (Some c) (Size r).

Definition set_Size {A} (v : float) (r : point A) : point A :=
  mk_point (label r) (other r) (conc r) (Colour r) (Some v).

(** [gdf.loc[gdf.index == i, 'conc'].values] *)
Definition loc_conc {A} (i : Z) (gdf : list (point A)) : ndarray :=
  conc <$> filter (fun r => label r = i) gdf.

(** [gdf.loc[gdf.index == i, 'Colour'] = c] for a string [c]. *)
Definition loc_set_Colour {A} (i : Z) (c : string) (gdf : list (point A))
    : list (point A) :=
  (fun r => if decide (label r = i) then set_Colour c r else r) <$> gdf.

(** [gdf.loc[gdf.index == i, 'Size'] = vals] for an array [vals]: the
    selected rows take its elements in order. *)
Fixpoint loc_set_Size {A} (i : Z) (vals : ndarray) (gdf : list (point A))
    : list (point A) :=
  match gdf with
  | [] => []
  | r :: gdf' =>
      if decide (label r = i) then
        match vals with
        | v :: vals' => set_Size v r :: loc_set_Size i vals' gdf'
        | [] => r :: loc_set_Size i [] gdf'
        end
      else r :: loc_set_Size i vals gdf'
  end.

(** The body of the [for] loop.  The frame is mutated in place, so the
    answer is the frame as the step leaves it, with the exception that
    ended it, if any. *)
Definition symbology_step {A} (param : string) (i : Z) (gdf : list (point A))
    : list (point A) * option exn :=
  let c_value := loc_conc i gdf in
  match p_limits param with
  | Raise e => (gdf, Some e)
  | Ok limit =>
      let c_symbol := (fun c => 5 * c / limit)%float <$> c_value in
      match imeca_colours param c_value with
      | Raise e => (gdf, Some e)
      | Ok c_colour =>
          let gdf := loc_set_Colour i c_colour gdf in
          let gdf := loc_set_Size i c_symbol gdf in
          (gdf, None)
      end
  end.

Fixpoint symbology_loop {A} (param : string) (range : list Z)
    (gdf : list (point A)) : list (point A) * option exn :=
  match range with
  | [] => (gdf, None)
  | i :: range' =>
      match symbology_step param i gdf with
      | (gdf', None) => symbology_loop param range' gdf'
      | (gdf', Some e) => (gdf', Some e)
      end
  end.

(** [for i in range(len(gdf))]: the labels tried are 0 .. len - 1. *)
Definition symbology_gdf {A} (gdf : list (point A)) (param : string)
    : list (point A) * option exn :=
  symbology_loop param (seqZ 0 (Z.of_nat (length gdf))) gdf.

(** What the documentation promises for one row: the colour and the
    size of its own concentration, every other column as it was. *)
Definition annotated {A} (param : string) (limit : float) (r : point A)
    : point A :=
  mk_point (label r) (other r) (conc r)
           (Some (scalar_colour param (conc r)))
           (Some (5 * conc r / limit)%float).

(** What one pass of the loop body writes on a selected row, for the
    colour it computed. *)
Definition assigned {A} (limit : float) (colour : string) (r : point A)
    : point A :=
  set_Size (5 * conc r / limit)%float (set_Colour colour r).

(** A row transformer that leaves the index, the concentration and the
    other columns alone, and changes nothing at all on a row whose label
    is not in [range]. *)
Definition keeps {A} (range : list Z) (g : point A → point A) : Prop :=
  ∀ r, label (g r) = label r ∧ conc (g r) = conc r ∧ other (g r) = other r
       ∧ (label r ∉ range → g r = r).

(** ** [data.week_average] *)

(** One row of the long-format observation table.  [EST] is the column
    named ['EST_' + station]. *)
Record obs : Type := mk_obs {
  FECHA : datetime;
  PARAM : string;
  EST : string;
  CONC : float;
  LONG : float;
  LAT : float
}.

(** One row of [df_week]; the column of the station is [W_EST]. *)
Record week_row : Type := mk_week_row {
  S_ID : string;
  S_YEAR : string;
  W_PARAM : string;
  W_EST : string;
  W_CONC : float;
  DESV_EST : float;
  W_LONG : float;
  W_LAT : float
}.

Definition set_W_CONC (v : float) (r : week_row) : week_row :=
  mk_week_row (S_ID r) (S_YEAR r) (W_PARAM r) (W_EST r) v (DESV_EST r)
              (W_LONG r) (W_LAT r).

Definition set_DESV_EST (v : float) (r : week_row) : week_row :=
  mk_week_row (S_ID r) (S_YEAR r) (W_PARAM r) (W_EST r) (W_CONC r) v
              (W_LONG r) (W_LAT r).

(** [Series.unique()]: the distinct values in order of first appearance. *)
Fixpoint unique_from (seen l : list string) : list string :=
  match l with
  | [] => []
  | x :: l' =>
      if decide (x ∈ seen) then unique_from seen l'
      else x :: unique_from (x :: seen) l'
  end.

Definition unique (l : list string) : list string := unique_from [] l.

(** ['S' + str(s)] and ['S' + str(s) + '-' + str(y)]. *)
Definition week_id (s : nat) : string := "S" +:+ pretty s.
Definition week_year_id (s : nat) (y : Z) : string :=
  "S" +:+ pretty s +:+ "-" +:+ pretty y.

(** [df.loc[df[station_column] == est][col].iloc[0]] *)
Definition first_of (col : obs -> float) (est : string) (df : list obs)
    : result float :=
  match filter (fun r => EST r = est) df with
  | r :: _ => Ok (col r)
  | [] => Raise IndexError
  end.

Fixpoint rmapM {A B : Type} (f : A -> result B) (l : list A)
    : result (list B) :=
  match l with
  | [] => Ok []
  | x :: l' => y <-! f x; ys <-! rmapM f l'; Ok (y :: ys)
  end.

Fixpoint rfold {A S : Type} (f : A -> S -> result S) (l : list A) (s : S)
    : result S :=
  match l with
  | [] => Ok s
  | x :: l' => s' <-! f x s; rfold f l' s'
  end.

(** The keys of the pre-allocated rows, in the order of the four nested
    loops of lines 347 to 353. *)
Definition scaffold_keys (year : list Z) (params ests : list string)
    : list (Z * nat * string * string) :=
  y ← year; s ← seq 1 52; p ← params; est ← ests; [(y, s, p, est)].

Definition scaffold_row (df : list obs) (k : Z * nat * string * string)
    : result week_row :=
  let '(y, s, p, est) := k in
  long <-! first_of LONG est df;
  lat <-! first_of LAT est df;
  Ok (mk_week_row (week_id s) (week_year_id s y) p est nan nan long lat).

Definition scaffold (df : list obs) (year : list Z) : result (list week_row) :=
  rmapM (scaffold_row df)
        (scaffold_keys year (unique (PARAM <$> df)) (unique (EST <$> df))).

(** [int(round(n / d, 0))] for a length [n] and [d > 0]: the quotient
    rounded to the nearest integer, a tie going to the even one. *)
Definition py_round_div (n d : nat) : nat :=
  let q := (n / d)%nat in
  let r := (n mod d)%nat in
  if (2 * r <? d)%nat then q
  else if (d <? 2 * r)%nat then S q
  else if Nat.even q then q else S q.

(** [l.iloc[a:b]] for [0 <= a <= b]; the slice stops at the end of [l]. *)
Definition iloc_slice {A : Type} (a b : nat) (l : list A) : list A :=
  take (b - a) (drop a l).

(** [l.iloc[k]] *)
Definition iloc {A : Type} (k : nat) (l : list A) : result A :=
  match l !! k with
  | Some x => Ok x
  | None => Raise IndexError
  end.

(** [int((((i*interval+interval)-(i*interval))/2)-0.5)]: the float is
    truncated towards zero. *)
Definition mid_offset (i interval : nat) : nat :=
  Z.to_nat (Z.quot (Z.of_nat (i * interval + interval - i * interval) - 1) 2).

(** Lines 398 to 402: [s += 1], then back to 0 once past 52. *)
Definition next_week (s : nat) : nat :=
  let s := (s + 1)%nat in if (52 <? s)%nat then 0%nat else s.

(** The four-column mask of lines 386 to 389 and 392 to 395. *)
Definition week_mask (s : nat) (year_df : Z) (p est : string) (r : week_row)
    : bool :=
  bool_decide (S_ID r = week_id s)
  && bool_decide (S_YEAR r = week_year_id s year_df)
  && bool_decide (W_PARAM r = p)
  && bool_decide (W_EST r = est).

Definition loc_set_CONC (s : nat) (year_df : Z) (p est : string) (v : float)
    (df_week : list week_row) : list week_row :=
  (fun r => if week_mask s year_df p est r then set_W_CONC v r else r)
    <$> df_week.

Definition loc_set_DESV_EST (s : nat) (year_df : Z) (p est : string)
    (v : float) (df_week : list week_row) : list week_row :=
  (fun r => if week_mask s year_df p est r then set_DESV_EST v r else r)
    <$> df_week.

Section WeekAverage.

(** [Series.mean()] and [Series.std()] of pandas, on the values of a
    window: the arithmetic mean and the sample standard deviation, which
    [sample_mean] and [sample_std] below compute. *)
Variables series_mean series_std : list float -> float.

(** The window that iteration [i] reads. *)
Definition window (interval i : nat) (df_analysis : list obs) : list obs :=
  iloc_slice (i * interval) (i * interval + interval) df_analysis.

(** The body of [for i in range(0, divide)], lines 376 to 402, for the
    values of [i] still to run, with the week counter [s]. *)
Fixpoint week_loop (interval : nat) (p est : string)
    (df_analysis : list obs) (range : list nat) (s : nat)
    (df_week : list week_row) : result (list week_row) :=
  match range with
  | [] => Ok df_week
  | i :: range' =>
      let mean_conc :=
        series_mean (CONC <$> window interval i df_analysis) in
      let std_conc :=
        series_std (CONC <$> window interval i df_analysis) in
      let day_year := (i * interval + mid_offset i interval)%nat in
      row <-! iloc day_year df_analysis;
      let year_df := dt_year (FECHA row) in
      let df_week := loc_set_CONC s year_df p est mean_conc df_week in
      let df_week := loc_set_DESV_EST s year_df p est std_conc df_week in
      week_loop interval p est df_analysis range' (next_week s) df_week
  end.

(** Lines 368 to 402: one (pollutant, station) pair. *)
Definition week_pair (interval : nat) (df : list obs) (p est : string)
    (df_week : list week_row) : result (list week_row) :=
  let df_analysis := filter (fun r => PARAM r = p ∧ EST r = est) df in
  let divide := py_round_div (length df_analysis) interval in
  week_loop interval p est df_analysis (seq 0 divide) 1%nat df_week.

Definition week_average (df : list obs) (station : string)
    (interval : nat) (year_start year_end : Z) : result (list week_row) :=
  let year := seqZ year_start (year_end + 1 - year_start) in
  df_week <-! scaffold df year;
  let interval := 7%nat in
  rfold (fun p df_week =>
           rfold (fun est df_week => week_pair interval df p est df_week)
                 (unique (EST <$> df)) df_week)
        (unique (PARAM <$> df)) df_week.

(** The week counter at iteration [i]. *)
Definition week_label (i : nat) : nat := Nat.iter i next_week 1%nat.

(** What iteration [i] does to [df_week] with the default window of 7
    rows: the mean and the standard deviation of the rows of
    [window 7 i] (rows [7 * i] to [7 * i + 6], as many as exist) go to
    the rows of week
    [week_label i] in the year of row [7 * i + 3]. *)
Definition write_window (p est : string) (df_analysis : list obs) (i : nat)
    (df_week : list week_row) : list week_row :=
  match df_analysis !! (7 * i + 3)%nat with
  | Some row =>
      let values := CONC <$> window 7 i df_analysis in
      loc_set_DESV_EST (week_label i) (dt_year (FECHA row)) p est
        (series_std values)
        (loc_set_CONC (week_label i) (dt_year (FECHA row)) p est
           (series_mean values) df_week)
  | None => df_week
  end.

(** All the iterations for one (pollutant, station) pair. *)
Definition write_windows (df : list obs) (p est : string)
    (df_week : list week_row) : list week_row :=
  let df_analysis := filter (fun r => PARAM r = p ∧ EST r = est) df in
  foldl (fun df_week i => write_window p est df_analysis i df_week)
        df_week (seq 0 ((length df_analysis + 3) / 7)).

End WeekAverage.

(** A row of [df_week] whose week label is one of S1 .. S52. *)
Definition labelled_1_52 (r : week_row) : Prop :=
  ∃ s : nat, (1 <= s <= 52)%nat ∧ S_ID r = week_id s.

(** ** [Series.mean()] and [Series.std()]

    The two statistics as pandas computes them, with its defaults
    [skipna=True] and [ddof=1], on the binary64 values of a window.  A
    missing value (NaN) is left out of the count and replaced by 0 in
    the sums, which add the values of a window (at most seven) from left
    to right. *)
Definition float_sum (l : list float) : float :=
  foldl PrimFloat.add 0%float l.

Definition float_count (l : list float) : float :=
  foldl (fun acc _ => acc + 1)%float 0%float l.

(** The values that are not missing. *)
Definition notna (l : list float) : list float :=
  filter (fun x => PrimFloat.is_nan x = false) l.

(** The values with 0 for each missing one. *)
Definition fill_zero (l : list float) : list float :=
  (fun x => if PrimFloat.is_nan x then 0%float else x) <$> l.

(** [Series.mean()]: the sum of the values that are not missing divided
    by their number, NaN when there is none. *)
Definition sample_mean (l : list float) : float :=
  match notna l with
  | [] => nan
  | values => (float_sum (fill_zero l) / float_count values)%float
  end.

(** [Series.std()]: the square root of the sum of the squared deviations
    from the mean of the values that are not missing, divided by their
    number minus one; NaN when fewer than two values are present. *)
Definition sample_std (l : list float) : float :=
  match notna l with
  | [] | [_] => nan
  | values =>
      let count := float_count values in
      let avg := (float_sum (fill_zero l) / count)%float in
      let sqr := (fun x => if PrimFloat.is_nan x then 0
                           else (avg - x) * (avg - x))%float <$> l in
      PrimFloat.sqrt (float_sum sqr / (count - 1))%float
  end.

(** Four daily observations of one pollutant at one station, and a
    series of [n] of them starting on 2018-01-01. *)
Definition daily_obs (day : nat) (c : float) : obs :=
  mk_obs (mk_datetime 2018 1 1 0 0 + Z.of_nat day * us_per_day)
         "O3" "CEN" c (-103.35)%float 20.67%float.

Definition four_days : list obs :=
  [daily_obs 0 1; daily_obs 1 3; daily_obs 2 5; daily_obs 3 7]%float.

Definition daily_series (n : nat) : list obs :=
  (fun day => daily_obs day 2%float) <$> seq 0 n.

(** ** [data.simaj_download] *)

(** [s.endswith('/')] *)
Fixpoint ends_with_sep (s : string) : bool :=
  match s with
  | EmptyString => false
  | String c s' =>
      if String.eqb s' "" then String.eqb (String c "") "/"
      else ends_with_sep s'
  end.

(** [os.path.join(a, b)] of [posixpath], for two components. *)
Definition os_path_join (a b : string) : string :=
  if String.prefix "/" b then b
  else if String.eqb a "" || ends_with_sep a then a +:+ b
  else a +:+ "/" +:+ b.

(** The retrievals that [simaj_download] issues, in order, each as the
    pair (URL, local path) passed to [urllib.request.urlretrieve], when
    none of them fails. *)
Definition simaj_download (year_start year_end : Z) : list (string * string) :=
  (fun year =>
     let save_path :=
       os_path_join "../data/raw/"
         ("datos_" +:+ pretty (year_start + year) +:+ ".xlsx") in
     ("http://siga.jalisco.gob.mx/aire/reportes/datos_"
        +:+ pretty (year_start + year) +:+ ".xlsx", save_path))
    <$> seqZ 0 (year_end - year_start + 1).

(** ** [data.database_clean]: the year of a file and its timestamps *)




Definition days_in_year (year : Z) : Z :=
  if is_leap year then 366 else 365.

(** Lines 122 to 127: [date_array] for the year [year] (the value of
    [int(year)]).  The constructor of [datetime] raises [ValueError] for
    a year outside 1 .. 9999. *)
Definition date_array (fuel : nat) (year : Z) (interval : string)
    : option (result (list datetime)) :=
  if (1 <=? year) && (year <=? 9999) then
    let start_date := mk_datetime year 1 1 0 0 in
    let end_date := mk_datetime year 12 31 23 0 in
    daterange fuel start_date end_date interval 1
  else Some (Raise ValueError).

(** ** [data.restructure_database]: the coordinates of the stations *)

(** One row of [estaciones.csv]. *)
Record station : Type := mk_station {
  codigo : string;
  long : float;
  lat : float
}.

(** One row of [simaj_reestructurado_all]: the station code, the two
    columns that the loop of lines 323 to 332 writes ([None] while the
    cell is absent), and the other columns as [sr_other]. *)
Record simaj_row (A : Type) : Type := mk_simaj_row {
  sr_other : A;
  EST_SIMAJ : string;
  sr_LONG : option float;
  sr_LAT : option float
}.

Arguments mk_simaj_row {A} sr_other EST_SIMAJ sr_LONG sr_LAT.
Arguments sr_other {A} s.
Arguments EST_SIMAJ {A} s.
Arguments sr_LONG {A} s.
Arguments sr_LAT {A} s.

(** [stations_simaj[stations_simaj['codigo'] == est][col]]: the selected
    values with their index labels, which [read_csv] numbered 0, 1, ... *)
Definition station_series (col : station -> float) (est : string)
    (stations_simaj : list station) : list (nat * float) :=
  (fun kv => (kv.1, col kv.2))
    <$> filter (fun kv => codigo kv.2 = est) (imap pair stations_simaj).

(** [series[i]] for an integer [i] on a series with integer labels: the
    value at the label [i], [KeyError] if there is none. *)
Definition series_at (i : nat) (series : list (nat * float)) : result float :=
  match filter (fun kv => kv.1 = i) series with
  | kv :: _ => Ok kv.2
  | [] => Raise KeyError
  end.

Definition loc_set_LONG {A} (est : string) (v : float)
    (df : list (simaj_row A)) : list (simaj_row A) :=
  (fun r => if decide (EST_SIMAJ r = est)
            then mk_simaj_row (sr_other r) (EST_SIMAJ r) (Some v) (sr_LAT r)
            else r) <$> df.

Definition loc_set_LAT {A} (est : string) (v : float)
    (df : list (simaj_row A)) : list (simaj_row A) :=
  (fun r => if decide (EST_SIMAJ r = est)
            then mk_simaj_row (sr_other r) (EST_SIMAJ r) (sr_LONG r) (Some v)
            else r) <$> df.

(** [simaj_reestructurado_all]: the [pd.DataFrame()] of line 277, which
    has no column, until line 312 appends the long form of a file to it;
    from then on a table with the column [EST_SIMAJ]. *)
Inductive long_frame (A : Type) : Type :=
| no_columns
| long_rows (rows : list (simaj_row A)).

Arguments no_columns {A}.
Arguments long_rows {A} rows.

(** [simaj_reestructurado_all.append(simaj_reestructurado)] *)
Definition frame_append {A} (all : long_frame A)
    (simaj_reestructurado : list (simaj_row A)) : long_frame A :=
  match all with
  | no_columns => long_rows simaj_reestructurado
  | long_rows rows => long_rows (rows ++ simaj_reestructurado)
  end.

(** The two assignments through [.loc]: the attribute [EST_SIMAJ] of a
    frame without that column raises [AttributeError]. *)
Definition frame_set_LONG {A} (est : string) (v : float)
    (df : long_frame A) : result (long_frame A) :=
  match df with
  | no_columns => Raise AttributeError
  | long_rows rows => Ok (long_rows (loc_set_LONG est v rows))
  end.

Definition frame_set_LAT {A} (est : string) (v : float)
    (df : long_frame A) : result (long_frame A) :=
  match df with
  | no_columns => Raise AttributeError
  | long_rows rows => Ok (long_rows (loc_set_LAT est v rows))
  end.

(** Lines 321 to 332: [for est in stations_simaj['codigo']], with the
    counter [i], over the codes still to visit.  Each assignment
    evaluates its right-hand side before its target. *)
Fixpoint add_coordinates {A} (stations_simaj : list station)
    (codes : list string) (i : nat) (df : long_frame A)
    : result (long_frame A) :=
  match codes with
  | [] => Ok df
  | est :: codes' =>
      x <-! series_at i (station_series long est stations_simaj);
      df <-! frame_set_LONG est x df;
      y <-! series_at i (station_series lat est stations_simaj);
      df <-! frame_set_LAT est y df;
      add_coordinates stations_simaj codes' (i + 1)%nat df
  end.

(** The loop of lines 321 to 332 on what the loop over the directory
    left: [stations_simaj] is [None] while the name is unbound. *)
Definition restructure_coordinates {A}
    (stations_simaj : option (list station)) (df : long_frame A)
    : result (long_frame A) :=
  match stations_simaj with
  | None => Raise UnboundLocalError
  | Some stations_simaj =>
      add_coordinates stations_simaj (codigo <$> stations_simaj) 0%nat df
  end.

(** [s.endswith(suffix)] and [sub in s] *)
Definition ends_with (suffix s : string) : bool :=
  (String.length suffix <=? String.length s)%nat
  && String.eqb (String.substring (String.length s - String.length suffix)
                           (String.length suffix) s) suffix.

Fixpoint str_in (sub s : string) : bool :=
  String.prefix sub s
  || match s with
     | EmptyString => false
     | String _ s' => str_in sub s'
     end.

(** One turn of [for file in os.listdir(dir_gdl)], lines 280 to 319.  An
    entry of the directory is the name of a file with the long form that
    lines 287 to 310 give its content (read only when the name ends with
    ['.csv'] and contains [interval]); [estaciones] is the content of
    [estaciones.csv]. *)
Definition restructure_step {A} (interval : string)
    (estaciones : list station)
    (state : long_frame A * option (list station))
    (entry : string * list (simaj_row A))
    : long_frame A * option (list station) :=
  let '(all, stations_simaj) := state in
  let '(file, simaj_reestructurado) := entry in
  if ends_with ".csv" file then
    let all := if str_in interval file
               then frame_append all simaj_reestructurado
               else all in
    (all, Some estaciones)
  else (all, stations_simaj).

Definition restructure_files {A} (interval : string)
    (estaciones : list station) (listdir : list (string * list (simaj_row A)))
    : long_frame A * option (list station) :=
  foldl (restructure_step interval estaciones) (no_columns, None) listdir.

Definition restructure_database {A} (interval : string)
    (estaciones : list station) (listdir : list (string * list (simaj_row A)))
    : result (long_frame A) :=
  let '(all, stations_simaj) := restructure_files interval estaciones listdir in
  restructure_coordinates stations_simaj all.


(** ** [week_average]: the windows that reach a row *)

(** Whether window [i] of [df_analysis] selects the row [r] of
    [df_week]: the mask of lines 386 to 389 with the week counter and the
    year of that iteration. *)
Definition window_selects (p est : string) (df_analysis : list obs)
    (r : week_row) (i : nat) : bool :=
  match df_analysis !! (7 * i + 3)%nat with
  | Some row => week_mask (week_label i) (dt_year (FECHA row)) p est r
  | None => false
  end.

(** The key of a pre-allocated row: its four identifying columns. *)
Definition week_key (r : week_row) : string * string * string * string :=
  (S_ID r, S_YEAR r, W_PARAM r, W_EST r).

(** The four identifying columns that line 355 gives the row of the
    loop variables [(y, s, p, est)]. *)
Definition scaffold_key (k : Z * nat * string * string)
    : string * string * string * string :=
  let '(y, s, p, est) := k in (week_id s, week_year_id s y, p, est).

(** Every column of a row of [df_week] but the two statistics. *)
Definition week_frame (r : week_row)
    : string * string * string * string * float * float :=
  (S_ID r, S_YEAR r, W_PARAM r, W_EST r, W_LONG r, W_LAT r).

(** The statistics of window [i] written on a row. *)
Definition with_window (series_mean series_std : list float -> float)
    (df_analysis : list obs) (i : nat) (r : week_row) : week_row :=
  set_DESV_EST (series_std (CONC <$> window 7 i df_analysis))
    (set_W_CONC (series_mean (CONC <$> window 7 i df_analysis)) r).

(** A row of [df_week] labelled with a week and a year of the range. *)
Definition year_labelled (year_start year_end : Z) (r : week_row) : Prop :=
  ∃ (y : Z) (s : nat),
    year_start <= y <= year_end
    ∧ S_ID r = week_id s ∧ S_YEAR r = week_year_id s y.

(** The row that the loop of a pair leaves for [r]: [r] with the
    statistics of the last window that selects it, if any does. *)
Definition last_window_row (series_mean series_std : list float -> float)
    (p est : string) (df_analysis : list obs) (divide : nat) (r : week_row)
    : week_row :=
  match last (filter (fun i => window_selects p est df_analysis r i = true)
                     (seq 0 divide)) with
  | Some i => with_window series_mean series_std df_analysis i r
  | None => r
  end.

(** The palette of [imeca_colours]. *)
Definition imeca_palette : list string :=
  ["#75b46f"; "#f7ff55"; "#ff9e4f"; "#db3331"; "#c158b8"; "#ffffff"]%string.

(** ** Facts about the calendar arithmetic *)

Example ymd2ord_max : ymd2ord 9999 12 31 = max_ordinal.
Proof. reflexivity. Qed.

Example dt_year_2018 : dt_year (mk_datetime 2018 1 1 0 0) = 2018.
Proof. reflexivity. Qed.

Example dt_year_leap_end : dt_year (mk_datetime 2016 12 31 23 59) = 2016.
Proof. reflexivity. Qed.

Example dt_year_max : dt_year datetime_max = 9999.
Proof. reflexivity. Qed.

(** Side conditions on concrete inputs are settled by evaluation. *)
Ltac by_evaluation :=
  first
    [ reflexivity
    | left; reflexivity
    | right; reflexivity
    | split; vm_compute; congruence
    | vm_compute; congruence
    | vm_compute; lia ].

(** ** [daterange]: the loop *)

Lemma stepped_S start d n :
  stepped start d (S n) = start :: stepped (start + d) d n.
Proof.
  unfold stepped. cbn [seq fmap list_fmap]. f_equal; [lia|].
  rewrite <- fmap_S_seq, <- list_fmap_compose.
  apply list_fmap_ext. intros _ k _. cbn. lia.
Qed.

Lemma stepped_elem start d n t :
  t ∈ stepped start d n ↔ ∃ k : nat, (k < n)%nat ∧ t = start + Z.of_nat k * d.
Proof.
  unfold stepped. rewrite list_elem_of_fmap. split.
  - intros (k & -> & Hk). apply elem_of_seq in Hk. exists k. split; [lia|done].
  - intros (k & Hk & ->). exists k. split; [done|]. apply elem_of_seq. lia.
Qed.

Lemma stepped_lookup start d n k :
  (k < n)%nat → stepped start d n !! k = Some (start + Z.of_nat k * d).
Proof.
  intros Hk. unfold stepped. by rewrite list_lookup_fmap, lookup_seq_lt.
Qed.

Lemma stepped_length start d n : length (stepped start d n) = n.
Proof. unfold stepped. by rewrite length_fmap, length_seq. Qed.

(** With a positive step the loop appends the [n] timestamps up to
    [end_date] and returns, if the first one past [end_date] is still a
    [datetime]. *)
Lemma daterange_loop_returns d end_date n :
  0 < d →
  ∀ fuel start_date date_list,
    0 <= start_date →
    start_date + (Z.of_nat n - 1) * d <= end_date →
    end_date < start_date + Z.of_nat n * d →
    start_date + Z.of_nat n * d <= datetime_max →
    (n + 1 <= fuel)%nat →
    daterange_loop fuel (Some d) start_date end_date date_list
    = Some (Ok (date_list ++ stepped start_date d n)).
Proof.
  intros Hd. induction n as [|n IH]; intros fuel start acc H0 Hlo Hhi Hmax Hf.
  - destruct fuel as [|fuel]; [lia|]. cbn [daterange_loop].
    destruct (Z.leb_spec start end_date); [lia|].
    by rewrite app_nil_r.
  - destruct fuel as [|fuel]; [lia|]. cbn [daterange_loop].
    destruct (Z.leb_spec start end_date); [|lia].
    unfold datetime_add.
    destruct (Z.leb_spec 0 (start + d)); [|lia].
    destruct (Z.leb_spec (start + d) datetime_max); [|lia].
    cbn [andb]. rewrite IH by lia.
    by rewrite stepped_S, <- app_assoc.
Qed.

(** If that timestamp is beyond [datetime.max], the addition that would
    produce it raises. *)
Lemma daterange_loop_overflows d end_date n :
  0 < d → end_date <= datetime_max →
  ∀ fuel start_date date_list,
    0 <= start_date →
    start_date + Z.of_nat n * d <= end_date →
    datetime_max < start_date + (Z.of_nat n + 1) * d →
    (n + 1 <= fuel)%nat →
    daterange_loop fuel (Some d) start_date end_date date_list
    = Some (Raise OverflowError).
Proof.
  intros Hd He. induction n as [|n IH]; intros fuel start acc H0 Hlo Hhi Hf.
  - destruct fuel as [|fuel]; [lia|]. cbn [daterange_loop].
    destruct (Z.leb_spec start end_date); [|lia].
    unfold datetime_add.
    destruct (Z.leb_spec (start + d) datetime_max); [lia|].
    by rewrite andb_false_r.
  - destruct fuel as [|fuel]; [lia|]. cbn [daterange_loop].
    destruct (Z.leb_spec start end_date); [|lia].
    unfold datetime_add.
    destruct (Z.leb_spec 0 (start + d)); [|lia].
    destruct (Z.leb_spec (start + d) datetime_max); [|lia].
    cbn [andb]. apply IH; lia.
Qed.

(** A zero step never moves [start_date]: no amount of fuel suffices. *)
Lemma daterange_loop_zero_step end_date start_date :
  valid_datetime start_date → start_date <= end_date →
  ∀ fuel date_list,
    daterange_loop fuel (Some 0) start_date end_date date_list = None.
Proof.
  intros [H0 Hmax] Hle. induction fuel as [|fuel IH]; intros acc; [done|].
  cbn [daterange_loop].
  destruct (Z.leb_spec start_date end_date); [|lia].
  unfold datetime_add. rewrite Z.add_0_r.
  destruct (Z.leb_spec 0 start_date); [|lia].
  destruct (Z.leb_spec start_date datetime_max); [|lia].
  cbn [andb]. apply IH.
Qed.

Lemma daterange_delta_supported interval lapse :
  interval = "hour"%string ∨ interval = "day"%string →
  1 <= lapse →
  lapse * interval_us interval / us_per_day <= max_delta_days →
  daterange_delta interval lapse = Ok (Some (lapse * interval_us interval)).
Proof.
  intros Hi Hl Hd. unfold daterange_delta, interval_us in *.
  assert (Hpos : 0 <= lapse * (if String.eqb interval "hour"
                                then us_per_hour else us_per_day) / us_per_day).
  { apply Z.div_pos; [|done]. destruct (String.eqb interval "hour");
      unfold us_per_hour, us_per_day; lia. }
  destruct Hi as [-> | ->]; cbn [String.eqb Ascii.eqb Bool.eqb] in *;
    unfold timedelta_hours, timedelta_days, mk_timedelta; cbn [rbind];
    match goal with |- context [(?a <=? ?b) && (?c <=? ?e)] =>
      destruct (Z.leb_spec a b); [|unfold max_delta_days in *; lia];
      destruct (Z.leb_spec c e); [|lia] end; done.
Qed.

Lemma interval_us_pos interval : 0 < interval_us interval.
Proof. unfold interval_us. by destruct (String.eqb interval "hour"). Qed.

Lemma daterange_delta_unsupported interval lapse :
  ¬ (interval = "hour"%string ∨ interval = "day"%string) →
  daterange_delta interval lapse = Ok None.
Proof.
  intros Hn. unfold daterange_delta.
  destruct (String.eqb_spec interval "hour"); [tauto|].
  destruct (String.eqb_spec interval "day"); [tauto|done].
Qed.

Lemma daterange_count start_date end_date d :
  0 < d → start_date <= end_date →
  let n := Z.to_nat ((end_date - start_date) / d + 1) in
  start_date + (Z.of_nat n - 1) * d <= end_date
  ∧ end_date < start_date + Z.of_nat n * d.
Proof.
  intros Hd Hle n.
  assert (Hq : 0 <= (end_date - start_date) / d) by (apply Z.div_pos; lia).
  pose proof (Z.mul_div_le (end_date - start_date) d Hd).
  pose proof (Z.mul_succ_div_gt (end_date - start_date) d Hd).
  subst n. rewrite Z2Nat.id by lia. lia.
Qed.

(** The call returns the stepped list when nothing overflows. *)
Lemma daterange_returns start_date end_date interval lapse fuel :
  0 <= start_date → start_date <= end_date →
  interval = "hour"%string ∨ interval = "day"%string →
  1 <= lapse →
  let d := lapse * interval_us interval in
  let n := Z.to_nat ((end_date - start_date) / d + 1) in
  d / us_per_day <= max_delta_days →
  start_date + Z.of_nat n * d <= datetime_max →
  (n + 1 <= fuel)%nat →
  daterange fuel start_date end_date interval lapse
  = Some (Ok (stepped start_date d n)).
Proof.
  intros Hs0 Hle Hi Hl d n Hd Hmax Hf.
  assert (Hpos : 0 < d).
  { subst d. pose proof (interval_us_pos interval). lia. }
  destruct (daterange_count start_date end_date d Hpos Hle) as [Hlo Hhi].
  fold n in Hlo, Hhi.
  unfold daterange. rewrite daterange_delta_supported by done. fold d.
  by rewrite (daterange_loop_returns d end_date n Hpos fuel start_date []).
Qed.

(** ** [daterange]: the claims *)

(** C5, as amended.  For valid timestamps [start_date <= end_date], an
    interval of ['hour'] or ['day'] and [lapse >= 1] whose step
    [d = lapse * interval] is a representable [timedelta], let [n] be
    [(end_date - start_date) / d + 1].  If the first timestamp past
    [end_date], [start_date + n * d], is still a [datetime], then
    [daterange] returns, whatever fuel suffices, the list
    [start_date, start_date + d, ..., start_date + (n - 1) * d], which
    holds, in increasing order, exactly the timestamps
    [start_date + k * d <= end_date]; otherwise it raises
    [OverflowError]. *)
Theorem daterange_spec start_date end_date interval lapse :
  valid_datetime start_date → valid_datetime end_date →
  start_date <= end_date →
  interval = "hour"%string ∨ interval = "day"%string →
  1 <= lapse →
  let d := lapse * interval_us interval in
  let n := Z.to_nat ((end_date - start_date) / d + 1) in
  d / us_per_day <= max_delta_days →
  (start_date + Z.of_nat n * d <= datetime_max →
   ∀ fuel, (n + 1 <= fuel)%nat →
     daterange fuel start_date end_date interval lapse
     = Some (Ok (stepped start_date d n)))
  ∧ (datetime_max < start_date + Z.of_nat n * d →
     ∀ fuel, (n <= fuel)%nat →
       daterange fuel start_date end_date interval lapse
       = Some (Raise OverflowError))
  ∧ (∀ t, t ∈ stepped start_date d n
          ↔ ∃ k, 0 <= k ∧ t = start_date + k * d ∧ t <= end_date)
  ∧ length (stepped start_date d n) = n
  ∧ (∀ k, (k < n)%nat →
       stepped start_date d n !! k = Some (start_date + Z.of_nat k * d)).
Proof.
  intros [Hs0 Hs1] [He0 He1] Hle Hi Hl d n Hd.
  assert (Hpos : 0 < d).
  { subst d. pose proof (interval_us_pos interval). lia. }
  destruct (daterange_count start_date end_date d Hpos Hle) as [Hlo Hhi].
  fold n in Hlo, Hhi.
  assert (Hn : (1 <= n)%nat).
  { subst n. assert (0 <= (end_date - start_date) / d)
      by (apply Z.div_pos; lia). lia. }
  split; [|split; [|split; [|split]]].
  - intros Hmax fuel Hf. by apply daterange_returns.
  - intros Hmax fuel Hf.
    unfold daterange. rewrite daterange_delta_supported by done. fold d.
    destruct n as [|m]; [lia|].
    apply (daterange_loop_overflows d end_date m Hpos He1); lia.
  - intros t. rewrite stepped_elem. split.
    + intros (k & Hk & ->). exists (Z.of_nat k).
      split; [lia|split; [done|]]. nia.
    + intros (k & Hk & -> & Ht). exists (Z.to_nat k).
      rewrite Z2Nat.id by done. split; [|done].
      assert (k < Z.of_nat n) by nia. lia.
  - apply stepped_length.
  - intros k Hk. by apply stepped_lookup.
Qed.

(** The acceptance example of the specification: hourly from 2018-01-01
    00:00 to 03:00, with [lapse] 1 and 2. *)
Lemma daterange_spec_witness :
  daterange 5 (mk_datetime 2018 1 1 0 0) (mk_datetime 2018 1 1 3 0) "hour" 1
  = Some (Ok [mk_datetime 2018 1 1 0 0; mk_datetime 2018 1 1 1 0;
              mk_datetime 2018 1 1 2 0; mk_datetime 2018 1 1 3 0])
  ∧ daterange 5 (mk_datetime 2018 1 1 0 0) (mk_datetime 2018 1 1 3 0) "hour" 2
    = Some (Ok [mk_datetime 2018 1 1 0 0; mk_datetime 2018 1 1 2 0]).
Proof.
  split.
  - refine (proj1 (daterange_spec (mk_datetime 2018 1 1 0 0)
                     (mk_datetime 2018 1 1 3 0) "hour" 1 _ _ _ _ _ _) _ 5%nat _);
      by_evaluation.
  - refine (proj1 (daterange_spec (mk_datetime 2018 1 1 0 0)
                     (mk_datetime 2018 1 1 3 0) "hour" 2 _ _ _ _ _ _) _ 5%nat _);
      by_evaluation.
Defined.

(** C5 as stated fails at the upper end of the [datetime] range: from
    [datetime.max] to [datetime.max] the call raises instead of returning
    the one-element list. *)
Lemma daterange_spec_counterexample :
  valid_datetime datetime_max
  ∧ daterange 2 datetime_max datetime_max "hour" 1
    = Some (Raise OverflowError)
  ∧ ¬ ∃ fuel l,
      daterange fuel datetime_max datetime_max "hour" 1 = Some (Ok l).
Proof.
  split; [split; by vm_compute|]. split; [by vm_compute|].
  intros (fuel & l & H).
  destruct fuel as [|fuel]; [by vm_compute in H|].
  by vm_compute in H.
Qed.

(** C9, as amended.  For valid timestamps: with a supported interval and
    [lapse >= 1], [daterange] terminates with a list whenever its step is
    a representable [timedelta] and, if [start_date <= end_date], the
    first timestamp past [end_date] is a representable [datetime]; with a
    supported interval, [lapse = 0] and [start_date <= end_date] it never
    terminates; with an unsupported interval it raises
    [UnboundLocalError] when [start_date <= end_date], and returns the
    empty list when [start_date > end_date]. *)
Theorem daterange_totality start_date end_date interval lapse :
  valid_datetime start_date → valid_datetime end_date →
  let d := lapse * interval_us interval in
  let supported := interval = "hour"%string ∨ interval = "day"%string in
  (supported → 1 <= lapse → d / us_per_day <= max_delta_days →
   (start_date <= end_date →
    start_date + ((end_date - start_date) / d + 1) * d <= datetime_max) →
   ∃ fuel l, daterange fuel start_date end_date interval lapse = Some (Ok l))
  ∧ (supported → lapse = 0 → start_date <= end_date →
     ∀ fuel, daterange fuel start_date end_date interval lapse = None)
  ∧ (¬ supported → start_date <= end_date →
     ∀ fuel, daterange (S fuel) start_date end_date interval lapse
             = Some (Raise UnboundLocalError))
  ∧ (¬ supported → end_date < start_date →
     ∀ fuel, daterange (S fuel) start_date end_date interval lapse
             = Some (Ok [])).
Proof.
  intros Hs He d supported. repeat split.
  - intros Hi Hl Hd Hmax.
    destruct (Z.le_gt_cases start_date end_date) as [Hle|Hgt].
    + set (n := Z.to_nat ((end_date - start_date) / d + 1)).
      exists (n + 1)%nat, (stepped start_date d n).
      apply daterange_returns; try done; [apply Hs|].
      fold d. subst n. rewrite Z2Nat.id; [by apply Hmax|].
      assert (0 < d) by (subst d; pose proof (interval_us_pos interval); lia).
      assert (0 <= (end_date - start_date) / d) by (apply Z.div_pos; lia).
      lia.
    + exists 1%nat, []. unfold daterange.
      rewrite daterange_delta_supported by done. cbn [daterange_loop].
      destruct (Z.leb_spec start_date end_date); [lia|done].
  - intros Hi -> Hle fuel. unfold daterange.
    assert (daterange_delta interval 0 = Ok (Some 0)) as ->.
    { unfold daterange_delta. by destruct Hi as [-> | ->]. }
    by apply daterange_loop_zero_step.
  - intros Hi Hle fuel. unfold daterange.
    rewrite daterange_delta_unsupported by done. cbn [daterange_loop].
    destruct (Z.leb_spec start_date end_date); [done|lia].
  - intros Hi Hgt fuel. unfold daterange.
    rewrite daterange_delta_unsupported by done. cbn [daterange_loop].
    destruct (Z.leb_spec start_date end_date); [lia|done].
Qed.

(** The loop with a zero step on the first hours of 2018, and the
    unsupported interval ['week'] in both orders of the two dates. *)
Lemma daterange_totality_witness :
  (∀ fuel, daterange fuel (mk_datetime 2018 1 1 0 0)
             (mk_datetime 2018 1 1 3 0) "hour" 0 = None)
  ∧ (∀ fuel, daterange (S fuel) (mk_datetime 2018 1 1 0 0)
               (mk_datetime 2018 1 1 3 0) "week" 1
             = Some (Raise UnboundLocalError)).
Proof.
  assert (H0 : valid_datetime (mk_datetime 2018 1 1 0 0)) by by_evaluation.
  assert (H3 : valid_datetime (mk_datetime 2018 1 1 3 0)) by by_evaluation.
  split.
  - refine (proj1 (proj2 (daterange_totality _ _ "hour" 0 H0 H3)) _ _ _);
      by_evaluation.
  - refine (proj1 (proj2 (proj2 (daterange_totality _ _ "week" 1 H0 H3))) _ _).
    + intros [H | H]; discriminate H.
    + by_evaluation.
Defined.

(** C9 as stated fails for an unsupported interval when the start is
    after the end: the loop body never runs, and the call returns the
    empty list instead of failing. *)
Lemma daterange_totality_counterexample :
  "week"%string ≠ "hour"%string ∧ "week"%string ≠ "day"%string
  ∧ daterange 1 (mk_datetime 2018 1 2 0 0) (mk_datetime 2018 1 1 0 0) "week" 1
    = Some (Ok []).
Proof. repeat split; by vm_compute. Qed.

(** ** [p_limits] *)

Lemma p_limits_unknown param :
  param ∉ limit_codes → p_limits param = Raise KeyError.
Proof.
  unfold limit_codes. intros Hn. unfold p_limits, limit_dict.
  repeat (rewrite lookup_insert_ne; [|intros <-; apply Hn; set_solver]).
  by rewrite lookup_empty.
Qed.

Lemma p_limits_known param :
  param ∈ limit_codes → is_ok (p_limits param).
Proof.
  unfold limit_codes. intros Hin.
  repeat (apply elem_of_cons in Hin as [-> | Hin]; [by eexists|]).
  by apply elem_of_nil in Hin.
Qed.

(** C6.  [p_limits] returns the six literal thresholds, and raises
    [KeyError] exactly for the codes outside the table. *)
Theorem p_limits_table :
  p_limits "PM10" = Ok 214%float
  ∧ p_limits "O3" = Ok 0.154%float
  ∧ p_limits "CO" = Ok 16.5%float
  ∧ p_limits "PM25" = Ok 97.4%float
  ∧ p_limits "SO2" = Ok 0.195%float
  ∧ p_limits "NO2" = Ok 0.315%float
  ∧ p_limits "UNKNOWN" = Raise KeyError
  ∧ (∀ param, p_limits param = Raise KeyError ↔ param ∉ limit_codes)
  ∧ (∀ param e, p_limits param = Raise e → e = KeyError).
Proof.
  repeat (split; [by vm_compute|]). split.
  - intros param. split.
    + intros Hr Hin. destruct (p_limits_known param Hin) as [v Hv]. congruence.
    + apply p_limits_unknown.
  - intros param e. unfold p_limits.
    destruct (limit_dict !! param); congruence.
Qed.

(** ** [imeca_colours] *)

(** On a scalar every test has a truth value, so no branch raises. *)
Ltac split_tests :=
  repeat match goal with
    | |- context [if ?b then _ else _] => destruct b; cbn [rbind]
    end.

(** C1.  The bands are left-open and right-closed: the three calls of
    the specification compute the indices 100, 50 and 51 and fall in the
    bands that the claim names; an index of exactly 50, 100, 150 or 200
    takes the lower band and the next binary64 number above it the upper
    one; in general the band of an index [x] is decided by the tests
    [x <= 50], [50 < x <= 100], [100 < x <= 150], [150 < x <= 200] and
    [200 < x], in this order. *)
Theorem imeca_colours_boundaries :
  imeca_index "CO" (scalar 11) = Ok (scalar 100)
  ∧ imeca_colours "CO" (scalar 11) = Ok "#f7ff55"%string
  ∧ imeca_index "PM10" (scalar 40) = Ok (scalar 50)
  ∧ imeca_colours "PM10" (scalar 40) = Ok "#75b46f"%string
  ∧ imeca_index "PM10" (scalar 41) = Ok (scalar 51)
  ∧ imeca_colours "PM10" (scalar 41) = Ok "#f7ff55"%string
  ∧ imeca_band (scalar 50) = Ok "#75b46f"%string
  ∧ imeca_band (scalar (next_up 50)) = Ok "#f7ff55"%string
  ∧ imeca_band (scalar 100) = Ok "#f7ff55"%string
  ∧ imeca_band (scalar (next_up 100)) = Ok "#ff9e4f"%string
  ∧ imeca_band (scalar 150) = Ok "#ff9e4f"%string
  ∧ imeca_band (scalar (next_up 150)) = Ok "#db3331"%string
  ∧ imeca_band (scalar 200) = Ok "#db3331"%string
  ∧ imeca_band (scalar (next_up 200)) = Ok "#c158b8"%string
  ∧ (∀ x : float,
       imeca_band (scalar x)
       = Ok (if PrimFloat.leb x 50 then "#75b46f"
             else if PrimFloat.ltb 50 x && PrimFloat.leb x 100 then "#f7ff55"
             else if PrimFloat.ltb 100 x && PrimFloat.leb x 150 then "#ff9e4f"
             else if PrimFloat.ltb 150 x && PrimFloat.leb x 200 then "#db3331"
             else if PrimFloat.ltb 200 x then "#c158b8"
             else "#ffffff")%string).
Proof.
  repeat (split; [vm_compute; reflexivity|]).
  intros x. unfold imeca_band, rif, test_between, test_le, test_lt, scalar.
  cbn [fmap list_fmap truth rbind].
  repeat match goal with
    | |- context [PrimFloat.leb ?a ?b] =>
        destruct (PrimFloat.leb a b); cbn [rbind andb]
    | |- context [PrimFloat.ltb ?a ?b] =>
        destruct (PrimFloat.ltb a b); cbn [rbind andb]
    end; reflexivity.
Qed.

Lemma imeca_band_zero : imeca_band (scalar 0) = Ok "#75b46f"%string.
Proof. by vm_compute. Qed.

Lemma not_imeca_code param :
  param ∉ imeca_codes →
  String.eqb param "CO" = false ∧ String.eqb param "SO2" = false
  ∧ String.eqb param "NO2" = false ∧ String.eqb param "O3" = false
  ∧ String.eqb param "PM10" = false.
Proof.
  unfold imeca_codes. intros Hn.
  repeat split; apply String.eqb_neq; intros ->; apply Hn; set_solver.
Qed.

(** The index of an unknown code is the initial 0, and its colour the
    one of the lowest band. *)
Lemma imeca_unknown_code param (conc : ndarray) :
  param ∉ imeca_codes →
  imeca_index param conc = Ok (scalar 0)
  ∧ imeca_colours param conc = Ok "#75b46f"%string.
Proof.
  intros Hn. destruct (not_imeca_code param Hn) as (H1 & H2 & H3 & H4 & H5).
  assert (Hi : imeca_index param conc = Ok (scalar 0)).
  { unfold imeca_index. by rewrite H1, H2, H3, H4, H5. }
  split; [done|]. unfold imeca_colours. rewrite Hi. apply imeca_band_zero.
Qed.

(** C7.  For a pollutant code outside the five that [imeca_colours]
    knows, whatever the concentration is (a scalar or an array of any
    length), no error is raised, the index keeps its initial value 0 and
    the colour is the one of the lowest band. *)
Theorem imeca_colours_fallback param (conc : ndarray) :
  param ∉ imeca_codes →
  (∀ e, imeca_colours param conc ≠ Raise e)
  ∧ imeca_index param conc = Ok (scalar 0)
  ∧ imeca_colours param conc = Ok "#75b46f"%string.
Proof.
  intros Hn. destruct (imeca_unknown_code param conc Hn) as [Hi Hc].
  repeat split; [|done..]. intros e. congruence.
Qed.

(** ['PM25'] has a threshold in [p_limits] and no branch here. *)
Lemma imeca_colours_fallback_witness :
  (∀ e, imeca_colours "PM25" (scalar 35.5) ≠ Raise e)
  ∧ imeca_index "PM25" (scalar 35.5) = Ok (scalar 0)
  ∧ imeca_colours "PM25" (scalar 35.5) = Ok "#75b46f"%string.
Proof.
  apply (imeca_colours_fallback "PM25" (scalar 35.5)).
  unfold imeca_codes. intros Hin.
  repeat (apply elem_of_cons in Hin as [Hin | Hin]; [discriminate Hin|]).
  by apply elem_of_nil in Hin.
Defined.

Lemma imeca_band_scalar x : is_ok (imeca_band (scalar x)).
Proof.
  unfold imeca_band, rif, test_between, test_le, test_lt, scalar.
  cbn [fmap list_fmap truth rbind]. split_tests; by eexists.
Qed.

Lemma imeca_index_scalar param c :
  ∃ x, imeca_index param (scalar c) = Ok (scalar x).
Proof.
  unfold imeca_index, rif, test_between, test_le, test_lt, scalar.
  cbn [fmap list_fmap truth rbind]. split_tests; by eexists.
Qed.

Lemma imeca_colours_scalar param c :
  imeca_colours param (scalar c) = Ok (scalar_colour param c).
Proof.
  unfold scalar_colour.
  assert (H : is_ok (imeca_colours param (scalar c))).
  { unfold imeca_colours.
    destruct (imeca_index_scalar param c) as [x ->]. cbn [rbind].
    apply imeca_band_scalar. }
  destruct H as [col ->]. done.
Qed.

Lemma imeca_colours_ambiguous param (arr : ndarray) :
  param ∈ imeca_codes → (2 <= length arr)%nat →
  imeca_colours param arr = Raise ValueError.
Proof.
  unfold imeca_codes. intros Hin Hlen.
  destruct arr as [|a [|b arr]]; cbn in Hlen; [lia|lia|].
  repeat (apply elem_of_cons in Hin as [-> | Hin]; [reflexivity|]).
  by apply elem_of_nil in Hin.
Qed.

Lemma imeca_colours_empty param :
  param ∈ imeca_codes → is_ok (imeca_colours param []).
Proof.
  unfold imeca_codes. intros Hin.
  repeat (apply elem_of_cons in Hin as [-> | Hin]; [by eexists|]).
  by apply elem_of_nil in Hin.
Qed.

Lemma imeca_colours_raises param (arr : ndarray) e :
  imeca_colours param arr = Raise e → e = ValueError.
Proof.
  intros Hr. destruct (decide (param ∈ imeca_codes)) as [Hin|Hn].
  - destruct arr as [|a [|b arr]].
    + destruct (imeca_colours_empty param Hin). congruence.
    + change [a] with (scalar a) in Hr.
      rewrite imeca_colours_scalar in Hr. congruence.
    + rewrite imeca_colours_ambiguous in Hr; [congruence|done|cbn; lia].
  - destruct (imeca_unknown_code param arr Hn). congruence.
Qed.

Lemma imeca_codes_limit param :
  param ∈ imeca_codes → is_ok (p_limits param).
Proof.
  intros Hin. apply p_limits_known. unfold imeca_codes, limit_codes in *.
  set_solver.
Qed.

(** ** [symbology_gdf]: one pass of the loop *)

Section Symbology.
Context {A : Type}.
Implicit Types (gdf : list (point A)) (r : point A) (i : Z).

Lemma loc_conc_fmap (g : point A → point A) i gdf :
  (∀ r, label (g r) = label r ∧ conc (g r) = conc r) →
  loc_conc i (g <$> gdf) = loc_conc i gdf.
Proof.
  intros Hg. unfold loc_conc. induction gdf as [|r gdf IH]; [done|].
  rewrite fmap_cons, !filter_cons. destruct (Hg r) as [Hl Hc]. rewrite Hl.
  destruct (decide (label r = i)); [|done].
  rewrite !fmap_cons, Hc. by f_equal.
Qed.

Lemma loc_set_Size_own i (f : float → float) gdf :
  loc_set_Size i (f <$> loc_conc i gdf) gdf
  = (λ r, if decide (label r = i) then set_Size (f (conc r)) r else r) <$> gdf.
Proof.
  unfold loc_conc. induction gdf as [|r gdf IH]; [done|].
  rewrite filter_cons. cbn [loc_set_Size fmap list_fmap].
  destruct (decide (label r = i)).
  - cbn [fmap list_fmap]. f_equal. apply IH.
  - f_equal. apply IH.
Qed.

Lemma symbology_step_ok param i gdf limit colour :
  p_limits param = Ok limit →
  imeca_colours param (loc_conc i gdf) = Ok colour →
  symbology_step param i gdf
  = ((λ r, if decide (label r = i) then assigned limit colour r else r)
       <$> gdf, None).
Proof.
  intros Hl Hc. unfold symbology_step. rewrite Hl, Hc. f_equal.
  rewrite <- (loc_conc_fmap
    (λ r, if decide (label r = i) then set_Colour colour r else r) i gdf)
    by (intros r; by destruct (decide (label r = i))).
  unfold loc_set_Colour. rewrite loc_set_Size_own, <- list_fmap_compose.
  apply list_fmap_ext. intros _ r _. cbn.
  destruct (decide (label r = i)) as [Hr|Hr]; cbn.
  - by rewrite decide_True.
  - by rewrite decide_False.
Qed.

Lemma symbology_step_raise param i gdf :
  (∃ e, symbology_step param i gdf = (gdf, Some e)
        ∧ (p_limits param = Raise e
           ∨ imeca_colours param (loc_conc i gdf) = Raise e))
  ∨ (∃ limit colour,
       p_limits param = Ok limit
       ∧ imeca_colours param (loc_conc i gdf) = Ok colour).
Proof.
  unfold symbology_step.
  destruct (p_limits param) as [limit|e]; [|left; eauto].
  destruct (imeca_colours param (loc_conc i gdf)) as [colour|e];
    [right|left]; eauto.
Qed.

Lemma keeps_assigned i limit colour :
  keeps [i] (λ r, if decide (label r = i) then assigned limit colour r else r).
Proof.
  intros r. destruct (decide (label r = i)) as [Hr|Hr]; cbn; [|done].
  repeat split. intros Hn. exfalso. apply Hn. rewrite Hr. set_solver.
Qed.

Lemma keeps_id range : keeps range (λ r : point A, r).
Proof. done. Qed.

Lemma keeps_compose i range (g1 g2 : point A → point A) :
  keeps [i] g1 → keeps range g2 → keeps (i :: range) (g2 ∘ g1).
Proof.
  intros H1 H2 r. cbn.
  destruct (H1 r) as (Hl1 & Hc1 & Ho1 & Hk1).
  destruct (H2 (g1 r)) as (Hl2 & Hc2 & Ho2 & Hk2).
  repeat split; [congruence..|].
  intros Hn. rewrite Hk2, Hk1; [done|set_solver|rewrite Hl1; set_solver].
Qed.

(** Whatever happens, the frame that the loop leaves is the input frame
    with each row transformed in place by a function that [keeps] the
    labels tried. *)
Lemma symbology_loop_pointwise param range gdf :
  ∃ g, keeps range g ∧ (symbology_loop param range gdf).1 = g <$> gdf.
Proof.
  revert gdf. induction range as [|i range IH]; intros gdf.
  - exists (λ r, r). split; [apply keeps_id|]. cbn. by rewrite list_fmap_id.
  - cbn [symbology_loop].
    destruct (symbology_step_raise param i gdf)
      as [(e & -> & _) | (limit & colour & Hl & Hc)].
    + exists (λ r, r). split; [apply keeps_id|]. cbn. by rewrite list_fmap_id.
    + rewrite (symbology_step_ok param i gdf limit colour Hl Hc).
      destruct (IH ((λ r, if decide (label r = i)
                          then assigned limit colour r else r) <$> gdf))
        as (g & Hg & ->).
      eexists. split; [|by rewrite <- list_fmap_compose].
      apply keeps_compose; [apply keeps_assigned|done].
Qed.

(** If every label tried selects rows for which the colour computed on
    the selection is the colour of each selected row alone, the loop
    returns and has annotated exactly the rows whose label it tried. *)
Lemma symbology_loop_ok param limit range gdf :
  p_limits param = Ok limit →
  (∀ i, i ∈ range →
     ∃ colour, imeca_colours param (loc_conc i gdf) = Ok colour
               ∧ ∀ r, r ∈ gdf → label r = i →
                      scalar_colour param (conc r) = colour) →
  symbology_loop param range gdf
  = ((λ r, if decide (label r ∈ range) then annotated param limit r else r)
       <$> gdf, None).
Proof.
  intros Hl. revert gdf. induction range as [|i range IH]; intros gdf Hsel.
  - cbn. f_equal. rewrite <- (list_fmap_id gdf) at 1.
    apply list_fmap_ext. intros _ r _. cbn.
    rewrite decide_False; [done|]. apply not_elem_of_nil.
  - cbn [symbology_loop].
    destruct (Hsel i) as (colour & Hc & Hrows); [set_solver|].
    rewrite (symbology_step_ok param i gdf limit colour Hl Hc).
    set (g := λ r, if decide (label r = i)
                   then assigned limit colour r else r).
    assert (Hg : ∀ r, label (g r) = label r ∧ conc (g r) = conc r).
    { intros r. unfold g. by destruct (decide (label r = i)). }
    rewrite IH.
    + f_equal. rewrite <- list_fmap_compose.
      apply list_fmap_ext. intros k r Hk. cbn.
      apply list_elem_of_lookup_2 in Hk.
      destruct (Hg r) as [Hgl Hgc]. rewrite Hgl.
      unfold g. destruct (decide (label r = i)) as [Hr|Hr].
      * rewrite (decide_True (P := label r ∈ i :: range)) by set_solver.
        specialize (Hrows r Hk Hr).
        assert (Ha : assigned limit colour r = annotated param limit r).
        { unfold assigned, annotated, set_Size, set_Colour. cbn.
          by rewrite Hrows. }
        rewrite Ha. by destruct (decide (label r ∈ range)).
      * destruct (decide (label r ∈ range)) as [Hin|Hnin].
        -- by rewrite decide_True by set_solver.
        -- by rewrite decide_False by set_solver.
    + intros j Hj. destruct (Hsel j) as (colour' & Hc' & Hrows'); [set_solver|].
      exists colour'. rewrite loc_conc_fmap by done. split; [done|].
      intros r' Hr' Hlab. apply list_elem_of_fmap in Hr' as (r & -> & Hr).
      destruct (Hg r) as [Hgl Hgc]. rewrite Hgc. apply Hrows'; congruence.
Qed.

(** A label that occurs once selects one row. *)
Lemma filter_label_unique i gdf :
  NoDup (label <$> gdf) → i ∈ label <$> gdf →
  ∃ r, filter (λ r, label r = i) gdf = [r].
Proof.
  induction gdf as [|r gdf IH]; intros Hnd Hin.
  - by apply elem_of_nil in Hin.
  - rewrite fmap_cons in Hnd, Hin. apply NoDup_cons in Hnd as [Hr Hnd].
    rewrite filter_cons. destruct (decide (label r = i)) as [Heq|Hne].
    + exists r. f_equal. subst i.
      destruct (filter (λ r0, label r0 = label r) gdf) as [|r' l] eqn:Hf;
        [done|].
      assert (Hin' : r' ∈ filter (λ r0, label r0 = label r) gdf)
        by (rewrite Hf; set_solver).
      apply list_elem_of_filter in Hin' as [Hl Hm].
      exfalso. apply Hr. rewrite <- Hl. by apply list_elem_of_fmap_2.
    + apply IH; [done|]. set_solver.
Qed.

(** The rows that share a label [i] are at least as many as the
    concentrations that [loc_conc] selects. *)
Lemma loc_conc_length i gdf :
  length (loc_conc i gdf) = length (filter (λ r, label r = i) gdf).
Proof. unfold loc_conc. by rewrite length_fmap. Qed.

(** With one of the five codes of [imeca_colours], a label in the range
    that two or more rows share ends the call with [ValueError]. *)
Lemma symbology_loop_ambiguous param range gdf i :
  param ∈ imeca_codes → i ∈ range →
  (2 <= length (loc_conc i gdf))%nat →
  (symbology_loop param range gdf).2 = Some ValueError.
Proof.
  intros Hp. revert gdf. induction range as [|j range IH]; intros gdf Hi Hlen.
  - by apply elem_of_nil in Hi.
  - cbn [symbology_loop].
    destruct (symbology_step_raise param j gdf)
      as [(e & -> & [Hr|Hr]) | (limit & colour & Hl & Hc)].
    + destruct (imeca_codes_limit param Hp). congruence.
    + cbn. f_equal. by apply imeca_colours_raises in Hr.
    + rewrite (symbology_step_ok param j gdf limit colour Hl Hc).
      apply IH.
      * apply elem_of_cons in Hi as [-> | Hi]; [|done].
        rewrite imeca_colours_ambiguous in Hc by done. congruence.
      * rewrite loc_conc_fmap; [done|].
        intros r. by destruct (decide (label r = j)).
Qed.

End Symbology.

(** ** [symbology_gdf]: the claims *)

Lemma filter_eq_NoDup (x : Z) (l : list Z) :
  NoDup l → x ∈ l → filter (λ i, x = i) l = [x].
Proof.
  induction l as [|y l IH]; intros Hnd Hin.
  - by apply elem_of_nil in Hin.
  - apply NoDup_cons in Hnd as [Hy Hnd]. rewrite filter_cons.
    destruct (decide (x = y)) as [<-|Hne].
    + f_equal. destruct (filter (λ i, x = i) l) as [|z l'] eqn:Hf; [done|].
      assert (Hz : z ∈ filter (λ i, x = i) l) by (rewrite Hf; set_solver).
      apply list_elem_of_filter in Hz as [<- Hz]. done.
    + apply IH; [done|set_solver].
Qed.

Lemma fallback_colour param c :
  param ∉ imeca_codes → scalar_colour param c = "#75b46f"%string.
Proof.
  intros Hn. unfold scalar_colour.
  by destruct (imeca_unknown_code param (scalar c) Hn) as [_ ->].
Qed.

(** When the index labels are 0 .. n - 1, each once, the call returns
    the frame with every row annotated and nothing else changed. *)
Lemma symbology_gdf_range_index {A} (gdf : list (point A)) param limit :
  label <$> gdf ≡ₚ seqZ 0 (Z.of_nat (length gdf)) →
  p_limits param = Ok limit →
  symbology_gdf gdf param = (annotated param limit <$> gdf, None).
Proof.
  intros Hperm Hl. unfold symbology_gdf.
  rewrite (symbology_loop_ok param limit); [|done|].
  2: {
    intros i Hi.
    destruct (filter_label_unique i gdf) as [r0 Hf].
    { rewrite Hperm. apply NoDup_seqZ. }
    { by rewrite Hperm. }
    exists (scalar_colour param (conc r0)). unfold loc_conc. rewrite Hf.
    split; [apply imeca_colours_scalar|].
    intros r Hr Hlab.
    assert (Hin : r ∈ filter (λ r, label r = i) gdf)
      by (by apply list_elem_of_filter).
    rewrite Hf in Hin. by apply list_elem_of_singleton in Hin as ->. }
  f_equal. apply list_fmap_ext. intros k r Hk. cbn.
  rewrite decide_True; [done|].
  rewrite <- Hperm. apply list_elem_of_fmap_2.
  by apply list_elem_of_lookup_2 in Hk.
Qed.

(** C8, as amended.  For a point dataset whose index labels are exactly
    0 .. n - 1, each once, and a pollutant that [p_limits] knows,
    [symbology_gdf] returns the dataset with, on every row, [Size] equal
    to [5 * conc / p_limits(pollutant)] and [Colour] equal to
    [imeca_colours(pollutant, conc)]; the label, the concentration and
    every other column of every row are unchanged, and no row is added
    or removed. *)
Theorem symbology_gdf_annotates {A} (gdf : list (point A)) param limit :
  label <$> gdf ≡ₚ seqZ 0 (Z.of_nat (length gdf)) →
  p_limits param = Ok limit →
  ∃ gdf',
    symbology_gdf gdf param = (gdf', None)
    ∧ length gdf' = length gdf
    ∧ ∀ k r, gdf !! k = Some r →
        ∃ r' colour,
          gdf' !! k = Some r'
          ∧ imeca_colours param (scalar (conc r)) = Ok colour
          ∧ Colour r' = Some colour
          ∧ Size r' = Some (5 * conc r / limit)%float
          ∧ label r' = label r ∧ conc r' = conc r ∧ other r' = other r.
Proof.
  intros Hperm Hl. exists (annotated param limit <$> gdf).
  split; [by apply symbology_gdf_range_index|].
  split; [by rewrite length_fmap|].
  intros k r Hk.
  exists (annotated param limit r), (scalar_colour param (conc r)).
  rewrite list_lookup_fmap, Hk. repeat split.
  apply imeca_colours_scalar.
Qed.

(** Three points with the default index, annotated for carbon monoxide. *)
Lemma symbology_gdf_annotates_witness :
  ∃ gdf',
    symbology_gdf [mk_point 0 () 5.5%float None None;
                   mk_point 1 () 11%float None None;
                   mk_point 2 () 12.1%float None None] "CO" = (gdf', None)
    ∧ Colour <$> gdf'
      = [Some "#75b46f"; Some "#f7ff55"; Some "#ff9e4f"]%string
    ∧ Size <$> gdf'
      = [Some (5 * 5.5 / 16.5); Some (5 * 11 / 16.5);
         Some (5 * 12.1 / 16.5)]%float.
Proof.
  destruct (symbology_gdf_annotates
              [mk_point 0 () 5.5%float None None;
               mk_point 1 () 11%float None None;
               mk_point 2 () 12.1%float None None] "CO" 16.5%float)
    as (gdf' & Hrun & _ & _); [reflexivity | reflexivity |].
  exists gdf'. split; [exact Hrun|].
  vm_compute in Hrun. injection Hrun as <-.
  split; vm_compute; reflexivity.
Defined.

(** C8 as stated fails on a dataset whose index is not 0 .. n - 1, for
    instance one row kept from a larger dataset with its label 5: the
    call returns it without colour or size.  It also fails for a
    pollutant without a threshold: the call raises [KeyError]. *)
Lemma symbology_gdf_annotates_counterexample :
  p_limits "PM25" = Ok 97.4%float
  ∧ symbology_gdf [mk_point 5 () 35.5%float None None] "PM25"
    = ([mk_point 5 () 35.5%float None None], None)
  ∧ symbology_gdf [mk_point 0 () 35.5%float None None] "PM1"
    = ([mk_point 0 () 35.5%float None None], Some KeyError).
Proof. repeat split; vm_compute; reflexivity. Qed.

(** C10, as amended.  [symbology_gdf] addresses rows by index label and
    tries the labels 0 .. n - 1, where [n] is the number of rows.
    - When the labels are exactly 0 .. n - 1, each once, and the
      pollutant is known to [p_limits], every row is annotated, by
      exactly one pass of the loop.
    - A row whose label is outside 0 .. n - 1 is never assigned: it is
      in the frame that the call leaves, raising or not, as it was.
    - When two or more rows share a label in 0 .. n - 1: for the five
      codes of [imeca_colours] the call ends with [ValueError]; for a
      code of [p_limits] outside them (['PM25']) it returns, and every
      row whose label is in the range has the colour ['#75b46f'] and
      the size of its own concentration. *)
Theorem symbology_gdf_by_label {A} (gdf : list (point A)) param :
  let n := Z.of_nat (length gdf) in
  (label <$> gdf ≡ₚ seqZ 0 n →
   ∀ limit, p_limits param = Ok limit →
     symbology_gdf gdf param = (annotated param limit <$> gdf, None)
     ∧ ∀ r, r ∈ gdf → length (filter (λ i, label r = i) (seqZ 0 n)) = 1%nat)
  ∧ (∀ k r, gdf !! k = Some r → ¬ (0 <= label r < n) →
       (symbology_gdf gdf param).1 !! k = Some r)
  ∧ (∀ i, 0 <= i < n → param ∈ imeca_codes →
       (2 <= length (filter (λ r, label r = i) gdf))%nat →
       (symbology_gdf gdf param).2 = Some ValueError)
  ∧ (param ∉ imeca_codes →
     ∀ limit, p_limits param = Ok limit →
       symbology_gdf gdf param
       = ((λ r, if decide (0 <= label r < n)
                then mk_point (label r) (other r) (conc r)
                       (Some "#75b46f"%string)
                       (Some (5 * conc r / limit)%float)
                else r) <$> gdf, None)).
Proof.
  intros n.
  assert (Hrun : ∀ p, symbology_gdf gdf p = symbology_loop p (seqZ 0 n) gdf)
    by done.
  split; [|split; [|split]].
  - intros Hperm limit Hl. split; [by apply symbology_gdf_range_index|].
    intros r Hr. rewrite filter_eq_NoDup; [done|apply NoDup_seqZ|].
    rewrite <- Hperm. by apply list_elem_of_fmap_2.
  - intros k r Hk Hout. rewrite Hrun.
    destruct (symbology_loop_pointwise param (seqZ 0 n) gdf) as (g & Hg & ->).
    rewrite list_lookup_fmap, Hk. cbn. f_equal.
    destruct (Hg r) as (_ & _ & _ & Hkeep). apply Hkeep.
    rewrite elem_of_seqZ. lia.
  - intros i Hi Hp Hlen. rewrite Hrun.
    apply (symbology_loop_ambiguous param (seqZ 0 n) gdf i); [done| |].
    + rewrite elem_of_seqZ. lia.
    + by rewrite loc_conc_length.
  - intros Hp limit Hl. rewrite Hrun.
    rewrite (symbology_loop_ok param limit); [|done|].
    + f_equal. apply list_fmap_ext. intros k r _. cbn.
      unfold annotated. rewrite (fallback_colour param (conc r) Hp).
      destruct (decide (label r ∈ seqZ 0 n)) as [Hin|Hnin];
        rewrite elem_of_seqZ in *.
      * rewrite decide_True; [done|lia].
      * rewrite decide_False; [done|lia].
    + intros i _. exists "#75b46f"%string. split.
      * by destruct (imeca_unknown_code param (loc_conc i gdf) Hp).
      * intros r _ _. by apply fallback_colour.
Qed.

(** C10 as stated fails for rows that share a label: with two rows
    labelled 0, the call for ['CO'] raises and assigns nothing, and the
    call for ['PM25'] gives the two rows different sizes. *)
Lemma symbology_gdf_by_label_counterexample :
  symbology_gdf [mk_point 0 () 1%float None None;
                 mk_point 0 () 2%float None None] "CO"
  = ([mk_point 0 () 1%float None None;
      mk_point 0 () 2%float None None], Some ValueError)
  ∧ ∃ s1 s2,
      Size <$> (symbology_gdf [mk_point 0 () 1%float None None;
                               mk_point 0 () 2%float None None] "PM25").1
      = [Some s1; Some s2]
      ∧ PrimFloat.ltb s1 s2 = true.
Proof.
  split; [vm_compute; reflexivity|].
  eexists _, _. split; vm_compute; reflexivity.
Qed.

(** ** [week_average]: counting and cutting the windows *)

Ltac div_facts a b :=
  pose proof (Nat.div_mod_eq a b);
  pose proof (Nat.mod_upper_bound a b ltac:(lia)).

Lemma py_round_div_7 n : py_round_div n 7 = ((n + 3) / 7)%nat.
Proof.
  unfold py_round_div. div_facts n 7%nat. div_facts (n + 3)%nat 7%nat.
  destruct (Nat.ltb_spec (2 * (n mod 7)) 7); [lia|].
  destruct (Nat.ltb_spec 7 (2 * (n mod 7))); lia.
Qed.

Lemma mid_offset_7 i : mid_offset i 7 = 3%nat.
Proof.
  unfold mid_offset. by replace (i * 7 + 7 - i * 7)%nat with 7%nat by lia.
Qed.

Lemma window_7 {A} i (l : list A) :
  iloc_slice (i * 7) (i * 7 + 7) l = take 7 (drop (7 * i) l).
Proof.
  unfold iloc_slice. replace (i * 7 + 7 - i * 7)%nat with 7%nat by lia.
  by rewrite (Nat.mul_comm i 7).
Qed.

Lemma window_length i (l : list obs) :
  length (window 7 i l) = (7 `min` (length l - 7 * i))%nat.
Proof. unfold window. by rewrite window_7, length_take, length_drop. Qed.

(** The first [d] windows are consecutive and do not overlap: put end
    to end they are the first [7 * d] rows. *)
Lemma windows_concat d (l : list obs) :
  concat ((λ i, window 7 i l) <$> seq 0 d) = take (7 * d) l.
Proof.
  induction d as [|d IH]; [done|].
  rewrite seq_S, fmap_app, concat_app, IH. cbn [fmap list_fmap concat].
  rewrite app_nil_r. unfold window. rewrite window_7, take_take_drop.
  f_equal. lia.
Qed.

Lemma week_label_S i : week_label (S i) = next_week (week_label i).
Proof. done. Qed.

Lemma week_label_mod i : week_label i = ((i + 1) mod 53)%nat.
Proof.
  induction i as [|i IH]; [done|].
  rewrite week_label_S, IH. unfold next_week.
  div_facts (i + 1)%nat 53%nat. div_facts (S i + 1)%nat 53%nat.
  destruct (Nat.ltb_spec 52 ((i + 1) mod 53 + 1)); lia.
Qed.

(** ** [week_average]: the table *)

Lemma week_id_inj s1 s2 : week_id s1 = week_id s2 → s1 = s2.
Proof.
  unfold week_id. intros H%(inj (String.append "S")).
  by apply (inj pretty) in H.
Qed.

Lemma week_mask_0 y p est r :
  labelled_1_52 r → week_mask 0 y p est r = false.
Proof.
  intros (s & Hs & Hid). unfold week_mask.
  rewrite (bool_decide_eq_false_2 (S_ID r = week_id 0)); [done|].
  rewrite Hid. intros H%week_id_inj. lia.
Qed.

Lemma loc_set_CONC_labelled s y p est v df_week :
  Forall labelled_1_52 df_week →
  Forall labelled_1_52 (loc_set_CONC s y p est v df_week).
Proof.
  intros H. unfold loc_set_CONC. apply Forall_fmap.
  eapply Forall_impl; [exact H|]. intros r Hr. cbn.
  by destruct (week_mask s y p est r).
Qed.

Lemma loc_set_DESV_EST_labelled s y p est v df_week :
  Forall labelled_1_52 df_week →
  Forall labelled_1_52 (loc_set_DESV_EST s y p est v df_week).
Proof.
  intros H. unfold loc_set_DESV_EST. apply Forall_fmap.
  eapply Forall_impl; [exact H|]. intros r Hr. cbn.
  by destruct (week_mask s y p est r).
Qed.

Lemma loc_set_CONC_0 y p est v df_week :
  Forall labelled_1_52 df_week → loc_set_CONC 0 y p est v df_week = df_week.
Proof.
  intros H. unfold loc_set_CONC. rewrite <- (list_fmap_id df_week) at 2.
  apply Forall_fmap_ext. eapply Forall_impl; [exact H|].
  intros r Hr. cbn. by rewrite week_mask_0.
Qed.

Lemma loc_set_DESV_EST_0 y p est v df_week :
  Forall labelled_1_52 df_week →
  loc_set_DESV_EST 0 y p est v df_week = df_week.
Proof.
  intros H. unfold loc_set_DESV_EST. rewrite <- (list_fmap_id df_week) at 2.
  apply Forall_fmap_ext. eapply Forall_impl; [exact H|].
  intros r Hr. cbn. by rewrite week_mask_0.
Qed.

Lemma rmapM_ok {A B} (f : A → result B) (P : B → Prop) (l : list A) :
  (∀ x, x ∈ l → ∃ y, f x = Ok y ∧ P y) →
  ∃ t, rmapM f l = Ok t ∧ Forall P t ∧ length t = length l.
Proof.
  induction l as [|x l IH]; intros H.
  - by exists [].
  - destruct (H x) as (y & Hy & HP); [set_solver|].
    destruct IH as (t & Ht & HF & Hlen); [intros; apply H; set_solver|].
    exists (y :: t). cbn. rewrite Hy. cbn. rewrite Ht. cbn.
    repeat split; [by constructor|by rewrite Hlen].
Qed.

Lemma rfold_ok {A S} (f : A → S → result S) (g : S → A → S) (P : S → Prop)
    (l : list A) (s : S) :
  (∀ x s, P s → f x s = Ok (g s x) ∧ P (g s x)) → P s →
  rfold f l s = Ok (foldl g s l) ∧ P (foldl g s l).
Proof.
  intros H. revert s. induction l as [|x l IH]; intros s Hs; [done|].
  cbn. destruct (H x s Hs) as [-> HP]. cbn. by apply IH.
Qed.

Lemma unique_from_elem seen l x : x ∈ unique_from seen l → x ∈ l.
Proof.
  revert seen. induction l as [|y l IH]; intros seen; cbn; [done|].
  destruct (decide (y ∈ seen)).
  - intros H%IH. set_solver.
  - intros [-> | H%IH]%elem_of_cons; set_solver.
Qed.

Lemma unique_elem l x : x ∈ unique l → x ∈ l.
Proof. apply unique_from_elem. Qed.

Lemma first_of_ok col est df :
  est ∈ EST <$> df → is_ok (first_of col est df).
Proof.
  intros (r & -> & Hr)%list_elem_of_fmap. unfold first_of.
  destruct (filter (λ r0, EST r0 = EST r) df) as [|r' l] eqn:Hf.
  - exfalso. eapply (filter_nil_not_elem_of _ _ r Hf); done.
  - by eexists.
Qed.

Lemma scaffold_keys_elem year params ests y s p est :
  (y, s, p, est) ∈ scaffold_keys year params ests →
  (1 <= s <= 52)%nat ∧ est ∈ ests.
Proof.
  unfold scaffold_keys.
  intros (y' & Hk & _)%list_elem_of_bind.
  apply list_elem_of_bind in Hk as (s' & Hk & Hs).
  apply list_elem_of_bind in Hk as (p' & Hk & _).
  apply list_elem_of_bind in Hk as (est' & Hk & Hest).
  apply list_elem_of_singleton in Hk. injection Hk as -> -> -> ->.
  apply elem_of_seq in Hs. split; [lia|done].
Qed.

(** The pre-allocation never fails, and labels every row S1 .. S52. *)
Lemma scaffold_ok df year :
  ∃ t, scaffold df year = Ok t ∧ Forall labelled_1_52 t.
Proof.
  destruct (rmapM_ok (scaffold_row df) labelled_1_52
              (scaffold_keys year (unique (PARAM <$> df))
                 (unique (EST <$> df)))) as (t & Ht & HF & _).
  - intros [[[y s] p] est] [Hs Hest]%scaffold_keys_elem.
    apply unique_elem in Hest.
    destruct (first_of_ok LONG est df Hest) as [long Hlong].
    destruct (first_of_ok LAT est df Hest) as [lat Hlat].
    eexists. cbn. rewrite Hlong, Hlat. cbn. split; [done|].
    by exists s.
  - by exists t.
Qed.

(** ** [week_average]: the loop over the windows *)

Section WeekAverageFacts.
Variables series_mean series_std : list float → float.

#[local] Abbreviation write_window := (write_window series_mean series_std).
#[local] Abbreviation write_windows := (write_windows series_mean series_std).
#[local] Abbreviation week_loop := (week_loop series_mean series_std).
#[local] Abbreviation week_pair := (week_pair series_mean series_std).
#[local] Abbreviation week_average := (week_average series_mean series_std).

(** The row in the middle of every window that the loop reads exists,
    so [iloc] never raises, and the loop is the fold of [write_window]. *)
Lemma week_loop_spec p est df_analysis len :
  ∀ a df_week,
    (7 * (a + len) <= length df_analysis + 3)%nat →
    week_loop 7 p est df_analysis (seq a len) (week_label a) df_week
    = Ok (foldl (λ df_week i, write_window p est df_analysis i df_week)
                df_week (seq a len)).
Proof.
  induction len as [|len IH]; intros a df_week Hlen; [done|].
  cbn [seq week_loop foldl]. rewrite mid_offset_7.
  unfold iloc, write_window.
  replace (a * 7 + 3)%nat with (7 * a + 3)%nat by lia.
  destruct (lookup_lt_is_Some_2 df_analysis (7 * a + 3)%nat) as [row ->];
    [lia|].
  cbn [rbind]. rewrite <- week_label_S. apply IH. lia.
Qed.

Lemma week_pair_spec df p est df_week :
  week_pair 7 df p est df_week = Ok (write_windows df p est df_week).
Proof.
  unfold week_pair, write_windows. rewrite py_round_div_7.
  apply (week_loop_spec p est _ _ 0%nat).
  div_facts (length (filter (λ r, PARAM r = p ∧ EST r = est) df) + 3)%nat
            7%nat. lia.
Qed.

Lemma write_window_labelled p est df_analysis i df_week :
  Forall labelled_1_52 df_week →
  Forall labelled_1_52 (write_window p est df_analysis i df_week).
Proof.
  intros H. unfold write_window.
  destruct (df_analysis !! (7 * i + 3)%nat); [|done].
  by apply loc_set_DESV_EST_labelled, loc_set_CONC_labelled.
Qed.

Lemma write_windows_labelled df p est df_week :
  Forall labelled_1_52 df_week →
  Forall labelled_1_52 (write_windows df p est df_week).
Proof.
  unfold write_windows.
  generalize (seq 0 ((length (filter (λ r, PARAM r = p ∧ EST r = est) df)
                      + 3) / 7)).
  intros l. revert df_week. induction l as [|i l IH]; intros df_week H;
    [done|].
  cbn. by apply IH, write_window_labelled.
Qed.

(** A window whose week counter is 0 writes nothing. *)
Lemma write_window_week_0 p est df_analysis i df_week :
  week_label i = 0%nat → Forall labelled_1_52 df_week →
  write_window p est df_analysis i df_week = df_week.
Proof.
  intros Hi H. unfold write_window.
  destruct (df_analysis !! (7 * i + 3)%nat); [|done].
  rewrite Hi. by rewrite loc_set_CONC_0, loc_set_DESV_EST_0.
Qed.

(** [week_average] never raises: it is the pre-allocated table with the
    windows of every (pollutant, station) pair written to it in turn,
    whatever window size the caller passed. *)
Lemma week_average_spec df station interval year_start year_end :
  ∃ df_week,
    scaffold df (seqZ year_start (year_end + 1 - year_start)) = Ok df_week
    ∧ Forall labelled_1_52 df_week
    ∧ week_average df station interval year_start year_end
      = Ok (foldl (λ df_week p,
                     foldl (λ df_week est, write_windows df p est df_week)
                           df_week (unique (EST <$> df)))
                  df_week (unique (PARAM <$> df)))
    ∧ Forall labelled_1_52
        (foldl (λ df_week p,
                  foldl (λ df_week est, write_windows df p est df_week)
                        df_week (unique (EST <$> df)))
               df_week (unique (PARAM <$> df))).
Proof.
  destruct (scaffold_ok df (seqZ year_start (year_end + 1 - year_start)))
    as (df_week & Hs & HF).
  exists df_week. split; [done|]. split; [done|].
  unfold week_average. rewrite Hs. cbn [rbind].
  apply (rfold_ok _ _ (Forall labelled_1_52)); [|done].
  intros p t Ht.
  apply (rfold_ok _ _ (Forall labelled_1_52)); [|done].
  intros est t' Ht'. rewrite week_pair_spec.
  split; [done|]. by apply write_windows_labelled.
Qed.

End WeekAverageFacts.

(** ** [week_average]: the last window that reaches a row *)

Lemma week_mask_set_W_CONC s y p est v r :
  week_mask s y p est (set_W_CONC v r) = week_mask s y p est r.
Proof. done. Qed.

Section WeekAverageLastWindow.
Variables series_mean series_std : list float → float.

Lemma last_window_row_S p est df_analysis d r :
  last_window_row series_mean series_std p est df_analysis (S d) r
  = if window_selects p est df_analysis r d
    then with_window series_mean series_std df_analysis d r
    else last_window_row series_mean series_std p est df_analysis d r.
Proof.
  unfold last_window_row.
  rewrite seq_S, filter_app, filter_cons, filter_nil. cbn [Nat.add].
  destruct (window_selects p est df_analysis r d).
  - rewrite decide_True by done. by rewrite last_snoc.
  - rewrite decide_False by done. by rewrite app_nil_r.
Qed.

Lemma week_mask_last_window_row s y p est df_analysis d r :
  week_mask s y p est
    (last_window_row series_mean series_std p est df_analysis d r)
  = week_mask s y p est r.
Proof.
  unfold last_window_row.
  by destruct (last (filter _ (seq 0 d))).
Qed.

(** The loop of one pair leaves every row with the statistics of the
    last window that selects it. *)
Lemma write_windows_last p est df_analysis divide df_week :
  foldl (λ df_week i,
           write_window series_mean series_std p est df_analysis i df_week)
        df_week (seq 0 divide)
  = last_window_row series_mean series_std p est df_analysis divide
      <$> df_week.
Proof.
  induction divide as [|d IH].
  - cbn. rewrite <- (list_fmap_id df_week) at 1. done.
  - rewrite seq_S, foldl_app, IH. cbn [foldl Nat.add].
    rewrite <- (list_fmap_id (_ <$> df_week)) at 1.
    unfold write_window.
    destruct (df_analysis !! (7 * d + 3)%nat) as [row|] eqn:Hrow.
    + unfold loc_set_DESV_EST, loc_set_CONC.
      rewrite <- !list_fmap_compose. apply list_fmap_ext.
      intros _ r _. cbn.
      rewrite last_window_row_S. unfold window_selects. rewrite Hrow.
      rewrite !week_mask_last_window_row.
      destruct (week_mask (week_label d) (dt_year (FECHA row)) p est r)
        eqn:Hsel.
      * rewrite week_mask_set_W_CONC, week_mask_last_window_row, Hsel.
        unfold last_window_row.
        by destruct (last (filter _ (seq 0 d))).
      * by rewrite week_mask_last_window_row, Hsel.
    + rewrite <- list_fmap_compose. apply list_fmap_ext.
      intros _ r _. cbn.
      rewrite last_window_row_S. unfold window_selects. by rewrite Hrow.
Qed.

End WeekAverageLastWindow.

(** ** [week_average]: the claims *)

(** On values none of which is missing, the two statistics are the
    plain formulas. *)
Lemma notna_all l :
  Forall (λ x, PrimFloat.is_nan x = false) l → notna l = l ∧ fill_zero l = l.
Proof.
  unfold notna, fill_zero.
  induction 1 as [|x l Hx _ [IH1 IH2]]; [done|].
  rewrite filter_cons, decide_True by done.
  rewrite fmap_cons, Hx. by rewrite IH1, IH2.
Qed.

Lemma sample_mean_notna l :
  Forall (λ x, PrimFloat.is_nan x = false) l → l ≠ [] →
  sample_mean l = (float_sum l / float_count l)%float.
Proof.
  intros [Hn Hz]%notna_all Hl. unfold sample_mean. rewrite Hn, Hz.
  by destruct l.
Qed.

Lemma sample_std_notna l :
  Forall (λ x, PrimFloat.is_nan x = false) l → (2 <= length l)%nat →
  sample_std l
  = PrimFloat.sqrt
      (float_sum ((λ x, (sample_mean l - x) * (sample_mean l - x))%float <$> l)
       / (float_count l - 1))%float.
Proof.
  intros Hl Hlen. pose proof (notna_all l Hl) as [Hn Hz].
  assert (Hne : l ≠ []) by (intros ->; cbn in Hlen; lia).
  rewrite (sample_mean_notna l Hl Hne).
  unfold sample_std. rewrite Hn, Hz.
  destruct l as [|x [|y l]]; [cbn in Hlen; lia..|].
  cbv zeta. do 3 f_equal.
  apply list_fmap_ext. intros k z Hz'%list_elem_of_lookup_2.
  rewrite Forall_forall in Hl. by rewrite (Hl z Hz').
Qed.

(** C2, as amended.  For every (pollutant, station) pair whose
    subsequence [df_analysis] (in the order of the input table) has [n]
    rows, [week_average] runs [round(n / 7)] windows, that is
    [(n + 3) / 7] of them: consecutive and non-overlapping, each of 7
    rows, except that when [n mod 7 >= 4] the last one holds the
    [n mod 7] remaining rows; a remainder of at most 3 rows is dropped.
    Window [i] computes the arithmetic mean and the sample standard
    deviation of those of its concentrations that are not missing, and
    writes them to the rows of the table that carry its week label, the
    year of its middle row, the pollutant and the station; it changes
    nothing else.  The loop therefore leaves each row with the two
    statistics of the last window that selects it.  A series of 371 rows
    has exactly 53 windows. *)
Theorem week_average_windows (df : list obs) (station : string)
    (interval : nat) (year_start year_end : Z) (p est : string) :
  let df_analysis := filter (λ r, PARAM r = p ∧ EST r = est) df in
  let n := length df_analysis in
  let divide := py_round_div n 7 in
  let values := λ i, CONC <$> window 7 i df_analysis in
  (∃ df_week,
     scaffold df (seqZ year_start (year_end + 1 - year_start)) = Ok df_week
     ∧ week_average sample_mean sample_std df station interval
         year_start year_end
       = Ok (foldl (λ df_week p,
               foldl (λ df_week est,
                        write_windows sample_mean sample_std df p est df_week)
                     df_week (unique (EST <$> df)))
               df_week (unique (PARAM <$> df))))
  ∧ (∀ df_week,
       week_pair sample_mean sample_std 7 df p est df_week
       = Ok (foldl (λ df_week i,
               write_window sample_mean sample_std p est df_analysis i df_week)
               df_week (seq 0 divide)))
  ∧ (∀ i df_week, (i < divide)%nat →
       ∃ row,
         df_analysis !! (7 * i + 3)%nat = Some row
         ∧ length (write_window sample_mean sample_std p est df_analysis i
                     df_week) = length df_week
         ∧ ∀ k r, df_week !! k = Some r →
             ∃ r',
               write_window sample_mean sample_std p est df_analysis i df_week
                 !! k = Some r'
               ∧ week_frame r' = week_frame r
               ∧ if week_mask (week_label i) (dt_year (FECHA row)) p est r
                 then W_CONC r' = sample_mean (values i)
                      ∧ DESV_EST r' = sample_std (values i)
                 else r' = r)
  ∧ (∀ df_week,
       week_pair sample_mean sample_std 7 df p est df_week
       = Ok (last_window_row sample_mean sample_std p est df_analysis divide
               <$> df_week))
  ∧ (∀ r i,
       last (filter (λ i, window_selects p est df_analysis r i = true)
                    (seq 0 divide)) = Some i →
       W_CONC (last_window_row sample_mean sample_std p est df_analysis
                 divide r) = sample_mean (values i)
       ∧ DESV_EST (last_window_row sample_mean sample_std p est df_analysis
                     divide r) = sample_std (values i)
       ∧ week_frame (last_window_row sample_mean sample_std p est df_analysis
                       divide r) = week_frame r)
  ∧ (∀ r,
       (∀ i, (i < divide)%nat → window_selects p est df_analysis r i = false) →
       last_window_row sample_mean sample_std p est df_analysis divide r = r)
  ∧ (∀ l, Forall (λ x, PrimFloat.is_nan x = false) l → l ≠ [] →
       sample_mean l = (float_sum l / float_count l)%float)
  ∧ (∀ l, Forall (λ x, PrimFloat.is_nan x = false) l → (2 <= length l)%nat →
       sample_std l
       = PrimFloat.sqrt
           (float_sum ((λ x, (sample_mean l - x) * (sample_mean l - x))%float
                         <$> l)
            / (float_count l - 1))%float)
  ∧ sample_mean [1; nan; 3; 5; 7; 9; 11]%float = 6%float
  ∧ sample_std [1; nan; 3; 5; 7; 9; 11]%float = 3.7416573867739413%float
  ∧ sample_mean [nan; nan]%float = nan
  ∧ sample_std [nan; 2; nan]%float = nan
  ∧ divide = ((n + 3) / 7)%nat
  ∧ concat ((λ i, window 7 i df_analysis) <$> seq 0 divide)
    = take (7 * divide) df_analysis
  ∧ (∀ i, (i < n / 7)%nat → length (window 7 i df_analysis) = 7%nat)
  ∧ ((n mod 7 <= 3)%nat → divide = (n / 7)%nat)
  ∧ ((4 <= n mod 7)%nat →
     divide = (n / 7 + 1)%nat
     ∧ length (window 7 (n / 7) df_analysis) = (n mod 7)%nat
     ∧ concat ((λ i, window 7 i df_analysis) <$> seq 0 divide) = df_analysis)
  ∧ (n = 371%nat → divide = 53%nat).
Proof.
  intros df_analysis n divide values.
  assert (Hdiv : divide = ((n + 3) / 7)%nat) by apply py_round_div_7.
  div_facts n 7%nat. div_facts (n + 3)%nat 7%nat.
  assert (Hpair : ∀ df_week,
            week_pair sample_mean sample_std 7 df p est df_week
            = Ok (foldl (λ df_week i,
                    write_window sample_mean sample_std p est df_analysis i
                      df_week)
                    df_week (seq 0 divide))).
  { intros df_week. rewrite week_pair_spec. unfold write_windows.
    fold df_analysis. fold n. by rewrite <- Hdiv. }
  split; [|split; [|split; [|split; [|split; [|split]]]]].
  - destruct (week_average_spec sample_mean sample_std df station interval
                year_start year_end) as (df_week & Hs & _ & Hrun & _).
    by exists df_week.
  - exact Hpair.
  - intros i df_week Hi.
    destruct (lookup_lt_is_Some_2 df_analysis (7 * i + 3)%nat) as [row Hrow];
      [fold n; lia|].
    exists row. split; [done|]. unfold write_window. rewrite Hrow.
    unfold loc_set_DESV_EST, loc_set_CONC. split.
    { by rewrite !length_fmap. }
    intros k r Hr. rewrite !list_lookup_fmap, Hr. cbn.
    eexists. split; [reflexivity|].
    destruct (week_mask (week_label i) (dt_year (FECHA row)) p est r)
      eqn:Hmask.
    + rewrite week_mask_set_W_CONC, Hmask. done.
    + rewrite Hmask. done.
  - intros df_week. rewrite Hpair. f_equal. apply write_windows_last.
  - intros r i Hlast. unfold last_window_row. rewrite Hlast. done.
  - intros r Hnone. unfold last_window_row.
    destruct (filter (λ i, window_selects p est df_analysis r i = true)
                (seq 0 divide)) as [|i l] eqn:Hf; [done|].
    assert (Hin : i ∈ filter
                    (λ i, window_selects p est df_analysis r i = true)
                    (seq 0 divide)) by (rewrite Hf; left).
    apply list_elem_of_filter in Hin as [Hsel Hin].
    apply elem_of_seq in Hin. rewrite Hnone in Hsel by lia. done.
  - split; [apply sample_mean_notna|]. split; [apply sample_std_notna|].
    do 4 (split; [vm_compute; reflexivity|]).
    split; [done|]. split; [apply windows_concat|].
    split; [intros i Hi; rewrite window_length; fold n; lia|].
    split; [lia|]. split.
    + intros Hr. repeat apply conj.
      * lia.
      * rewrite window_length. fold n. lia.
      * rewrite windows_concat. apply take_ge. fold n. lia.
    + intros Hn. rewrite Hdiv, Hn. reflexivity.
Qed.

(** C2 as stated fails on a series of four rows: the floor of 4 / 7 is 0,
    but one window is run, over the four rows, and its mean is recorded
    for week S1 of 2018. *)
Lemma week_average_windows_counterexample :
  length four_days = 4%nat
  ∧ (4 / 7 = 0)%nat
  ∧ py_round_div (length four_days) 7 = 1%nat
  ∧ length (window 7 0 four_days) = 4%nat
  ∧ ∃ t, week_average sample_mean sample_std four_days "SIMAJ" 7 2014 2019
         = Ok t
         ∧ W_CONC <$> filter (λ r, S_YEAR r = "S1-2018"%string) t
           = [4%float].
Proof.
  repeat (split; [reflexivity|]).
  eexists. split; vm_compute; reflexivity.
Qed.

(** C3.  The week counter runs 1, ..., 52 and then resets to 0, not 1:
    window [i] (counted from 0) has the label [(i + 1) mod 53], so the
    53rd window is labelled ['S0'].  The pre-allocated table holds only
    rows labelled S1 .. S52, no row matches ['S0'], and the 53rd window
    leaves the table as it was: its mean and standard deviation are
    dropped.  [week_average] always returns, and every row of the table
    it returns is labelled S1 .. S52.  On 371 daily rows of one
    pollutant at one station, 52 rows of the table receive a mean. *)
Theorem week_average_labels (series_mean series_std : list float → float)
    (df : list obs) (station : string) (interval : nat)
    (year_start year_end : Z) :
  (∀ i, week_label i = ((i + 1) mod 53)%nat)
  ∧ week_label 51 = 52%nat
  ∧ week_label 52 = 0%nat
  ∧ week_id (week_label 52) = "S0"%string
  ∧ (∃ df_week,
       scaffold df (seqZ year_start (year_end + 1 - year_start)) = Ok df_week
       ∧ Forall labelled_1_52 df_week)
  ∧ (∀ df_week, Forall labelled_1_52 df_week →
       Forall (λ r, S_ID r ≠ "S0"%string) df_week
       ∧ ∀ p est df_analysis,
           write_window series_mean series_std p est df_analysis 52 df_week
           = df_week)
  ∧ (∃ t, week_average series_mean series_std df station interval
            year_start year_end = Ok t
          ∧ Forall labelled_1_52 t)
  ∧ (∃ t, week_average sample_mean sample_std (daily_series 371) "SIMAJ" 7
            2014 2019 = Ok t
          ∧ length t = 312%nat
          ∧ length (filter (λ r, PrimFloat.is_nan (W_CONC r) = false) t)
            = 52%nat).
Proof.
  repeat apply conj.
  - apply week_label_mod.
  - reflexivity.
  - reflexivity.
  - reflexivity.
  - apply scaffold_ok.
  - intros df_week H. split.
    + eapply Forall_impl; [exact H|]. intros r (s & Hs & Hid).
      rewrite Hid. change "S0"%string with (week_id 0).
      intros H0%week_id_inj. lia.
    + intros p est df_analysis. by apply write_window_week_0.
  - destruct (week_average_spec series_mean series_std df station interval
                year_start year_end) as (df_week & _ & _ & Hrun & HF).
    eexists. split; [exact Hrun|exact HF].
  - eexists. split; [vm_compute; reflexivity|].
    split; vm_compute; reflexivity.
Qed.

(** C4 does not hold of the code: line 364 assigns 7 to [interval]
    before the windows are cut, so the window size that the caller
    passes is never read.  On four rows and a window size of 2, one
    window of four rows is run: week S1 of 2018 receives the mean of the
    four values, and week S2 stays empty. *)
Theorem week_average_interval_ignored
    (series_mean series_std : list float → float)
    (df : list obs) (station : string) (interval : nat)
    (year_start year_end : Z) :
  week_average series_mean series_std df station interval year_start year_end
  = week_average series_mean series_std df station 7 year_start year_end
  ∧ ∃ t, week_average sample_mean sample_std four_days "SIMAJ" 2 2014 2019
         = Ok t
         ∧ sample_mean (CONC <$> take 2 four_days) = 2%float
         ∧ sample_mean (CONC <$> take 2 (drop 2 four_days)) = 6%float
         ∧ W_CONC <$> filter (λ r, S_YEAR r = "S1-2018"%string) t
           = [4%float]
         ∧ W_CONC <$> filter (λ r, S_YEAR r = "S2-2018"%string) t
           = [nan].
Proof.
  split; [reflexivity|].
  eexists. split; [vm_compute; reflexivity|].
  repeat split; vm_compute; reflexivity.
Qed.

(** ** [simaj_download] and the file names that [database_clean] reads *)

Lemma string_length_app (s t : string) :
  String.length (s +:+ t) = (String.length s + String.length t)%nat.
Proof.
  induction s as [|a s IH]; [done|].
  change (String a s +:+ t) with (String a (s +:+ t)).
  cbn [String.length]. by rewrite IH.
Qed.

Lemma string_app_inj_r (s1 s2 t : string) : s1 +:+ t = s2 +:+ t → s1 = s2.
Proof.
  revert s2. induction s1 as [|a s1 IH]; intros [|b s2] H; [done| | |].
  - apply (f_equal String.length) in H.
    rewrite !string_length_app in H. cbn [String.length] in H. lia.
  - apply (f_equal String.length) in H.
    rewrite !string_length_app in H. cbn [String.length] in H. lia.
  - change (String a (s1 +:+ t) = String b (s2 +:+ t)) in H.
    injection H as -> H. f_equal. by apply IH.
Qed.

Lemma simaj_save_path (year : Z) :
  os_path_join "../data/raw/" ("datos_" +:+ pretty year +:+ ".xlsx")
  = "../data/raw/datos_" +:+ pretty year +:+ ".xlsx".
Proof. reflexivity. Qed.

Lemma simaj_save_path_inj (y1 y2 : Z) :
  "../data/raw/datos_" +:+ pretty y1 +:+ ".xlsx"
  = "../data/raw/datos_" +:+ pretty y2 +:+ ".xlsx" → y1 = y2.
Proof.
  intros H%(inj (String.append "../data/raw/datos_"))%string_app_inj_r.
  by apply (inj pretty) in H.
Qed.

(** X1.  [simaj_download] asks for one workbook per year from
    [year_start] to [year_end], both included, in increasing order, each
    saved as [../data/raw/datos_<year>.xlsx]; no two years share a
    local path, and nothing is asked for when [year_end < year_start]. *)
Theorem simaj_download_requests year_start year_end :
  length (simaj_download year_start year_end)
  = Z.to_nat (year_end - year_start + 1)
  ∧ (∀ k : nat, (k < Z.to_nat (year_end - year_start + 1))%nat →
       simaj_download year_start year_end !! k
       = Some ("http://siga.jalisco.gob.mx/aire/reportes/datos_"
                 +:+ pretty (year_start + Z.of_nat k) +:+ ".xlsx",
               "../data/raw/datos_"
                 +:+ pretty (year_start + Z.of_nat k) +:+ ".xlsx"))
  ∧ NoDup (snd <$> simaj_download year_start year_end)
  ∧ (year_end < year_start → simaj_download year_start year_end = []).
Proof.
  unfold simaj_download. repeat apply conj.
  - by rewrite length_fmap, length_seqZ.
  - intros k Hk. rewrite list_lookup_fmap, lookup_seqZ_lt by lia.
    cbn. by rewrite simaj_save_path, Z.add_0_l.
  - rewrite <- list_fmap_compose.
    apply NoDup_fmap_2_strong; [|apply NoDup_seqZ].
    intros k1 k2 _ _. cbn. rewrite !simaj_save_path.
    intros H%simaj_save_path_inj. lia.
  - intros Hlt. by rewrite seqZ_nil by lia.
Qed.





(** ** [daterange]: steps out of range, and the scaffold of a year *)

Lemma daterange_overflows start_date end_date interval lapse fuel :
  0 <= start_date → start_date <= end_date → end_date <= datetime_max →
  interval = "hour"%string ∨ interval = "day"%string →
  1 <= lapse →
  let d := lapse * interval_us interval in
  let n := Z.to_nat ((end_date - start_date) / d + 1) in
  d / us_per_day <= max_delta_days →
  datetime_max < start_date + Z.of_nat n * d →
  (n <= fuel)%nat →
  daterange fuel start_date end_date interval lapse
  = Some (Raise OverflowError).
Proof.
  intros Hs0 Hle He Hi Hl d n Hd Hmax Hf.
  assert (Hpos : 0 < d).
  { subst d. pose proof (interval_us_pos interval). lia. }
  destruct (daterange_count start_date end_date d Hpos Hle) as [Hlo Hhi].
  fold n in Hlo, Hhi.
  assert (Hn : (1 <= n)%nat).
  { subst n. assert (0 <= (end_date - start_date) / d)
      by (apply Z.div_pos; lia). lia. }
  unfold daterange. rewrite daterange_delta_supported by done. fold d.
  destruct n as [|m]; [lia|].
  apply (daterange_loop_overflows d end_date m Hpos He); lia.
Qed.

(** Going backwards from [start_date <= end_date], the loop leaves the
    range of [datetime] before it can stop. *)
Lemma daterange_loop_backwards d end_date :
  d < 0 → end_date <= datetime_max →
  ∀ fuel start_date date_list,
    0 <= start_date <= end_date →
    (daterange_loop fuel (Some d) start_date end_date date_list = None
     ∨ daterange_loop fuel (Some d) start_date end_date date_list
       = Some (Raise OverflowError))
    ∧ (start_date < Z.of_nat fuel →
       daterange_loop fuel (Some d) start_date end_date date_list
       = Some (Raise OverflowError)).
Proof.
  intros Hd He. induction fuel as [|fuel IH]; intros start acc Hs.
  - split; [by left|lia].
  - cbn [daterange_loop].
    destruct (Z.leb_spec start end_date); [|lia].
    unfold datetime_add.
    destruct (Z.leb_spec 0 (start + d)).
    + destruct (Z.leb_spec (start + d) datetime_max); [|lia].
      cbn [andb].
      destruct (IH (start + d) (acc ++ [start])) as [Hor Hlt]; [lia|].
      split; [done|]. intros Hf. apply Hlt. lia.
    + cbn [andb]. split; [by right|done].
Qed.

(** X3.  With a supported interval and a negative [lapse] whose step is
    a representable [timedelta], a call with [start_date <= end_date]
    never returns a list: it walks back from [start_date] and raises
    [OverflowError] when it passes 0001-01-01. *)
Theorem daterange_negative_lapse start_date end_date interval lapse :
  valid_datetime start_date → valid_datetime end_date →
  start_date <= end_date →
  interval = "hour"%string ∨ interval = "day"%string →
  lapse < 0 →
  - max_delta_days <= lapse * interval_us interval / us_per_day →
  (∀ fuel l,
     daterange fuel start_date end_date interval lapse ≠ Some (Ok l))
  ∧ ∃ fuel,
      daterange fuel start_date end_date interval lapse
      = Some (Raise OverflowError).
Proof.
  intros [Hs0 Hs1] [He0 He1] Hle Hi Hl Hd.
  set (d := lapse * interval_us interval) in *.
  assert (Hneg : d < 0).
  { subst d. pose proof (interval_us_pos interval). nia. }
  assert (Hdelta : daterange_delta interval lapse = Ok (Some d)).
  { unfold daterange_delta, timedelta_hours, timedelta_days, mk_timedelta.
    assert (Hdays : d / us_per_day < 0)
      by (apply Z.div_lt_upper_bound; [done|lia]).
    unfold d, interval_us in *.
    destruct Hi as [-> | ->]; cbn [String.eqb Ascii.eqb Bool.eqb] in *;
      match goal with |- context [(?a <=? ?b) && (?c <=? ?e)] =>
        destruct (Z.leb_spec a b); [|lia];
        destruct (Z.leb_spec c e); [|unfold max_delta_days in *; lia] end;
      done. }
  unfold daterange. rewrite Hdelta. split.
  - intros fuel l.
    destruct (daterange_loop_backwards d end_date Hneg He1 fuel start_date [])
      as [[-> | ->] _]; [lia|done..].
  - exists (Z.to_nat start_date + 1)%nat.
    apply (daterange_loop_backwards d end_date Hneg He1); lia.
Qed.

Lemma daterange_negative_lapse_witness :
  (∀ fuel l,
     daterange fuel (mk_datetime 2018 1 1 0 0) (mk_datetime 2018 1 1 3 0)
       "day" (-1) ≠ Some (Ok l))
  ∧ ∃ fuel,
      daterange fuel (mk_datetime 2018 1 1 0 0) (mk_datetime 2018 1 1 3 0)
        "day" (-1) = Some (Raise OverflowError).
Proof.
  apply (daterange_negative_lapse (mk_datetime 2018 1 1 0 0)
           (mk_datetime 2018 1 1 3 0) "day" (-1)); by_evaluation.
Defined.

(** X4.  The step is built before the loop: when [lapse] hours or days
    are 1000000000 days or more, or less than -999999999 days,
    [daterange] raises [OverflowError] whatever the two dates are, also
    when [start_date > end_date]; any [lapse] inside these bounds is
    accepted. *)
Theorem daterange_step_range interval lapse :
  interval = "hour"%string ∨ interval = "day"%string →
  let per_day := if String.eqb interval "hour" then 24 else 1 in
  ((- 999999999 * per_day <= lapse < 1000000000 * per_day) →
   daterange_delta interval lapse
   = Ok (Some (lapse * interval_us interval)))
  ∧ (¬ (- 999999999 * per_day <= lapse < 1000000000 * per_day) →
     ∀ fuel start_date end_date,
       daterange fuel start_date end_date interval lapse
       = Some (Raise OverflowError)).
Proof.
  intros Hi per_day.
  assert (Hdays : ∀ us,
    (- max_delta_days <=? us / us_per_day)
    && (us / us_per_day <=? max_delta_days)
    = (- 999999999 * us_per_day <=? us) && (us <? 1000000000 * us_per_day)).
  { intros us. unfold max_delta_days, us_per_day.
    change (86400 * 1000000) with 86400000000.
    apply Bool.eq_iff_eq_true.
    rewrite !andb_true_iff, !Z.leb_le, Z.ltb_lt.
    split; intros [H1 H2]; Z.to_euclidean_division_equations; lia. }
  unfold daterange, daterange_delta, timedelta_hours, timedelta_days,
    mk_timedelta, interval_us.
  subst per_day.
  destruct Hi as [-> | ->]; cbn [String.eqb Ascii.eqb Bool.eqb];
    rewrite Hdays; unfold us_per_day, us_per_hour; split.
  - intros Hr.
    destruct (Z.leb_spec (- 999999999 * (86400 * 1000000))
                (lapse * (3600 * 1000000))); [|lia].
    destruct (Z.ltb_spec (lapse * (3600 * 1000000))
                (1000000000 * (86400 * 1000000))); [done|lia].
  - intros Hr fuel start_date end_date.
    destruct (Z.leb_spec (- 999999999 * (86400 * 1000000))
                (lapse * (3600 * 1000000))); [|done].
    destruct (Z.ltb_spec (lapse * (3600 * 1000000))
                (1000000000 * (86400 * 1000000))); [lia|done].
  - intros Hr.
    destruct (Z.leb_spec (- 999999999 * (86400 * 1000000))
                (lapse * (86400 * 1000000))); [|lia].
    destruct (Z.ltb_spec (lapse * (86400 * 1000000))
                (1000000000 * (86400 * 1000000))); [done|lia].
  - intros Hr fuel start_date end_date.
    destruct (Z.leb_spec (- 999999999 * (86400 * 1000000))
                (lapse * (86400 * 1000000))); [|done].
    destruct (Z.ltb_spec (lapse * (86400 * 1000000))
                (1000000000 * (86400 * 1000000))); [lia|done].
Qed.

Lemma daterange_step_range_witness :
  daterange_delta "hour" (24000000000 - 1)
  = Ok (Some ((24000000000 - 1) * us_per_hour))
  ∧ daterange 0 (mk_datetime 2018 1 2 0 0) (mk_datetime 2018 1 1 0 0)
      "hour" 24000000000 = Some (Raise OverflowError).
Proof.
  split.
  - refine (proj1 (daterange_step_range "hour" (24000000000 - 1) _) _);
      by_evaluation.
  - refine (proj2 (daterange_step_range "hour" 24000000000 _) _ _ _ _).
    + by_evaluation.
    + vm_compute. intros [_ H]. discriminate H.
Defined.

Lemma year_first_instant year :
  mk_datetime year 1 1 0 0 = days_before_year year * us_per_day.
Proof.
  unfold mk_datetime, ymd2ord, days_before_month.
  change (seqZ 1 (1 - 1)) with (@nil Z). cbn [foldr]. lia.
Qed.

Lemma year_last_day year hour :
  mk_datetime year 12 31 hour 0
  = (days_before_year year + days_in_year year - 1) * us_per_day
    + hour * us_per_hour.
Proof.
  unfold mk_datetime, ymd2ord, days_before_month, days_in_year.
  change (seqZ 1 (12 - 1)) with [1; 2; 3; 4; 5; 6; 7; 8; 9; 10; 11].
  cbn [foldr]. unfold days_in_month, us_per_hour.
  cbn [Z.eqb Pos.eqb orb].
  destruct (is_leap year); lia.
Qed.

Lemma days_before_year_bounds year :
  1 <= year <= 9998 →
  0 <= days_before_year year
  ∧ days_before_year year + days_in_year year < max_ordinal.
Proof.
  intros Hy. unfold days_before_year, days_in_year, max_ordinal.
  destruct (is_leap year); Z.to_euclidean_division_equations; lia.
Qed.

(** X5.  The timestamps that [database_clean] lays out for a year from
    1 to 9998: one per hour from January 1st 00:00 to December 31st
    23:00, that is 8760 of them, or 8784 in a leap year, with
    ['hour']; one per day, 365 or 366, with ['day'].  For the year 9999
    the call raises [OverflowError] instead, because the loop steps past
    the last timestamp before it stops. *)
Theorem date_array_year year interval :
  1 <= year <= 9999 →
  interval = "hour"%string ∨ interval = "day"%string →
  let per_day := if String.eqb interval "hour" then 24 else 1 in
  let n := Z.to_nat (per_day * days_in_year year) in
  (year <= 9998 →
   ∀ fuel, (n + 1 <= fuel)%nat →
     date_array fuel year interval
     = Some (Ok (stepped (mk_datetime year 1 1 0 0) (interval_us interval) n)))
  ∧ (year = 9999 →
     ∀ fuel, (n <= fuel)%nat →
       date_array fuel year interval = Some (Raise OverflowError))
  ∧ last (stepped (mk_datetime year 1 1 0 0) (interval_us interval) n)
    = Some (mk_datetime year 12 31 (per_day - 1) 0).
Proof.
  intros Hy Hi per_day n.
  assert (Hcheck : (1 <=? year) && (year <=? 9999) = true).
  { apply andb_true_iff. split; apply Z.leb_le; lia. }
  assert (Hdays : days_in_year year = 365 ∨ days_in_year year = 366).
  { unfold days_in_year. destruct (is_leap year); auto. }
  assert (Hcount :
    Z.to_nat ((mk_datetime year 12 31 23 0 - mk_datetime year 1 1 0 0)
              / (1 * interval_us interval) + 1) = n).
  { rewrite year_first_instant, year_last_day. subst n per_day.
    replace ((days_before_year year + days_in_year year - 1) * us_per_day
             + 23 * us_per_hour - days_before_year year * us_per_day)
      with ((days_in_year year - 1) * us_per_day + 23 * us_per_hour) by lia.
    unfold interval_us.
    destruct Hi as [-> | ->], Hdays as [-> | ->]; reflexivity. }
  assert (Hsteps :
    mk_datetime year 1 1 0 0 + Z.of_nat n * (1 * interval_us interval)
    = (days_before_year year + days_in_year year) * us_per_day).
  { rewrite year_first_instant. subst n per_day. unfold interval_us.
    destruct Hi as [-> | ->], Hdays as [-> | ->];
      cbn [String.eqb Ascii.eqb Bool.eqb]; unfold us_per_hour, us_per_day;
      lia. }
  assert (Hle : mk_datetime year 1 1 0 0 <= mk_datetime year 12 31 23 0).
  { rewrite year_first_instant, year_last_day.
    unfold us_per_day, us_per_hour. lia. }
  assert (Hstep : 1 * interval_us interval / us_per_day <= max_delta_days).
  { unfold interval_us. by destruct Hi as [-> | ->]. }
  repeat apply conj.
  - intros Hy' fuel Hf. unfold date_array. rewrite Hcheck.
    destruct (days_before_year_bounds year) as [H0 Hmax]; [lia|].
    rewrite <- (Z.mul_1_l (interval_us interval)), <- Hcount.
    apply daterange_returns; try done; try lia.
    + rewrite year_first_instant. unfold us_per_day. lia.
    + rewrite Hcount, Hsteps.
      unfold datetime_max, max_ordinal, us_per_day in *. lia.
  - intros -> fuel Hf. unfold date_array. rewrite Hcheck.
    apply daterange_overflows; try done; try lia.
    rewrite Hcount, Hsteps. reflexivity.
  - rewrite last_lookup, stepped_length, stepped_lookup.
    + f_equal. rewrite year_first_instant, year_last_day.
      subst n per_day. unfold interval_us.
      destruct Hi as [-> | ->], Hdays as [-> | ->];
        cbn [String.eqb Ascii.eqb Bool.eqb]; unfold us_per_hour, us_per_day;
        lia.
    + subst n per_day.
      destruct Hi as [-> | ->], Hdays as [-> | ->];
        cbn [String.eqb Ascii.eqb Bool.eqb]; lia.
Qed.

(** The hours of 2018 and of the leap year 2016. *)
Lemma date_array_year_witness :
  (∃ l, date_array 8761 2018 "hour" = Some (Ok l) ∧ length l = 8760%nat)
  ∧ (∃ l, date_array 8785 2016 "hour" = Some (Ok l) ∧ length l = 8784%nat).
Proof.
  split.
  - eexists. split.
    + refine (proj1 (date_array_year 2018 "hour" _ _) _ 8761%nat _);
        by_evaluation.
    + by rewrite stepped_length.
  - eexists. split.
    + refine (proj1 (date_array_year 2016 "hour" _ _) _ 8785%nat _);
        by_evaluation.
    + by rewrite stepped_length.
Defined.

(** ** [imeca_colours]: every outcome *)

Lemma rif_cases {A} (c : result bool) (t e : result A) (a : A) :
  rif c t e = Ok a → t = Ok a ∨ e = Ok a.
Proof. unfold rif. destruct c as [[]|]; cbn; auto; congruence. Qed.

Lemma imeca_band_palette imeca colour :
  imeca_band imeca = Ok colour → colour ∈ imeca_palette.
Proof.
  unfold imeca_band, imeca_palette. intros H.
  repeat (apply rif_cases in H as [H|H]);
    injection H as <-; set_solver.
Qed.

(** X6.  [imeca_colours] has three outcomes only.  When it returns, the
    colour is one of the six of its palette.  It raises exactly when the
    pollutant has a branch (CO, SO2, NO2, O3, PM10) and the
    concentration is an array of two or more elements, and the
    exception is then [ValueError]; on a scalar it always returns. *)
Theorem imeca_colours_outcomes param (conc : ndarray) :
  (∀ colour, imeca_colours param conc = Ok colour → colour ∈ imeca_palette)
  ∧ (∀ e, imeca_colours param conc = Raise e → e = ValueError)
  ∧ (imeca_colours param conc = Raise ValueError
     ↔ param ∈ imeca_codes ∧ (2 <= length conc)%nat).
Proof.
  split; [|split].
  - intros colour. unfold imeca_colours.
    destruct (imeca_index param conc) as [imeca|e]; cbn [rbind]; [|done].
    apply imeca_band_palette.
  - apply imeca_colours_raises.
  - split.
    + intros Hr. destruct (decide (param ∈ imeca_codes)) as [Hin|Hn].
      * split; [done|]. destruct conc as [|a [|b conc]]; cbn; [| |lia].
        -- destruct (imeca_colours_empty param Hin). congruence.
        -- change [a] with (scalar a) in Hr.
           rewrite imeca_colours_scalar in Hr. congruence.
      * destruct (imeca_unknown_code param conc Hn). congruence.
    + intros [Hin Hlen]. by apply imeca_colours_ambiguous.
Qed.

(** X7.  A missing concentration (NaN) is not reported as such: for CO,
    SO2 and NO2 the index is NaN and the colour is the fall-through
    ['#ffffff'], but for O3, PM10 and every code without a branch no
    test succeeds, the index stays 0 and the colour is ['#75b46f'], the
    one of good air. *)
Theorem imeca_colours_nan param :
  imeca_colours param (scalar nan)
  = Ok (if decide (param ∈ ["CO"; "SO2"; "NO2"]%string)
        then "#ffffff" else "#75b46f")%string.
Proof.
  destruct (decide (param ∈ imeca_codes)) as [Hin|Hn].
  - unfold imeca_codes in Hin.
    repeat (apply elem_of_cons in Hin as [-> | Hin];
            [vm_compute; reflexivity|]).
    by apply elem_of_nil in Hin.
  - destruct (imeca_unknown_code param (scalar nan) Hn) as [_ ->].
    rewrite decide_False; [done|].
    intros Hin. apply Hn. unfold imeca_codes. set_solver.
Qed.

(** ** [symbology_gdf]: what holds for every dataset *)

Lemma symbology_loop_known {A} param range (gdf : list (point A)) :
  is_ok (p_limits param) →
  (symbology_loop param range gdf).2 = None
  ∨ (symbology_loop param range gdf).2 = Some ValueError.
Proof.
  intros [limit Hl]. revert gdf.
  induction range as [|i range IH]; intros gdf; [by left|].
  cbn [symbology_loop].
  destruct (symbology_step_raise param i gdf)
    as [(e & -> & [Hr|Hr]) | (limit' & colour & Hl' & Hc)].
  - congruence.
  - right. cbn. f_equal. by apply imeca_colours_raises in Hr.
  - rewrite (symbology_step_ok param i gdf limit' colour Hl' Hc). apply IH.
Qed.

(** X8.  Whatever the index of the dataset is, and whether the call
    returns or raises, [symbology_gdf] adds and removes no row and
    leaves the label, the concentration and every other column of every
    row as they were: only [Colour] and [Size] are ever written. *)
Theorem symbology_gdf_frame {A} (gdf : list (point A)) param :
  length (symbology_gdf gdf param).1 = length gdf
  ∧ label <$> (symbology_gdf gdf param).1 = label <$> gdf
  ∧ conc <$> (symbology_gdf gdf param).1 = conc <$> gdf
  ∧ other <$> (symbology_gdf gdf param).1 = other <$> gdf.
Proof.
  unfold symbology_gdf.
  destruct (symbology_loop_pointwise param
              (seqZ 0 (Z.of_nat (length gdf))) gdf) as (g & Hg & ->).
  rewrite length_fmap, <- !list_fmap_compose.
  repeat split; apply list_fmap_ext; intros _ r _; cbn;
    by destruct (Hg r) as (? & ? & ? & _).
Qed.

(** X9.  [symbology_gdf] raises [KeyError] exactly when the dataset has
    at least one row and the pollutant has no threshold in [p_limits];
    nothing has been written then.  An empty dataset is returned as it
    is for any pollutant, and no other exception than [KeyError] and
    [ValueError] is ever raised. *)
Theorem symbology_gdf_key_error {A} (gdf : list (point A)) param :
  ((symbology_gdf gdf param).2 = Some KeyError
   ↔ gdf ≠ [] ∧ param ∉ limit_codes)
  ∧ ((symbology_gdf gdf param).2 = Some KeyError →
     (symbology_gdf gdf param).1 = gdf)
  ∧ (∀ e, (symbology_gdf gdf param).2 = Some e →
          e = KeyError ∨ e = ValueError)
  ∧ (gdf = [] → symbology_gdf gdf param = ([], None)).
Proof.
  assert (Hcases :
    (param ∈ limit_codes
     ∧ ((symbology_gdf gdf param).2 = None
        ∨ (symbology_gdf gdf param).2 = Some ValueError))
    ∨ ((param ∉ limit_codes) ∧ gdf = []
       ∧ symbology_gdf gdf param = ([], None))
    ∨ ((param ∉ limit_codes) ∧ gdf ≠ []
       ∧ symbology_gdf gdf param = (gdf, Some KeyError))).
  { destruct (decide (param ∈ limit_codes)) as [Hin|Hn].
    - left. split; [done|].
      apply symbology_loop_known. by apply p_limits_known.
    - right. destruct gdf as [|r gdf]; [left; by repeat split|].
      right. split; [done|]. split; [done|].
      unfold symbology_gdf.
      rewrite seqZ_cons by (cbn [length]; lia).
      cbn [symbology_loop]. unfold symbology_step.
      by rewrite (p_limits_unknown param Hn). }
  split; [|split; [|split]].
  - split.
    + intros He.
      destruct Hcases as [[_ [H|H]] | [(_ & _ & H) | (Hn & Hne & _)]];
        [rewrite H in He; discriminate He ..|done].
    + intros [Hne Hn].
      destruct Hcases as [[Hin _] | [(_ & Hnil & _) | (_ & _ & H)]];
        [done|done|by rewrite H].
  - intros He.
    destruct Hcases as [[_ [H|H]] | [(_ & _ & H) | (_ & _ & H)]];
      [rewrite H in He; discriminate He ..|by rewrite H].
  - intros e He.
    destruct Hcases as [[_ [H|H]] | [(_ & _ & H) | (_ & _ & H)]];
      rewrite H in He; cbn in He.
    + discriminate He.
    + right. congruence.
    + discriminate He.
    + left. congruence.
  - intros ->. reflexivity.
Qed.

(** X10.  On a dataset whose index labels are 0 .. n - 1, each once,
    and for a pollutant with a threshold, annotating the result of
    [symbology_gdf] again gives the same dataset: the colours and sizes
    depend on the concentrations only, not on what the two columns held
    before. *)
Theorem symbology_gdf_idempotent {A} (gdf : list (point A)) param limit :
  label <$> gdf ≡ₚ seqZ 0 (Z.of_nat (length gdf)) →
  p_limits param = Ok limit →
  symbology_gdf (symbology_gdf gdf param).1 param = symbology_gdf gdf param
  ∧ symbology_gdf
      ((λ r, mk_point (label r) (other r) (conc r) None None) <$> gdf) param
    = symbology_gdf gdf param.
Proof.
  intros Hperm Hl.
  rewrite (symbology_gdf_range_index gdf param limit Hperm Hl). cbn [fst].
  split.
  - rewrite (symbology_gdf_range_index _ param limit); [|
      by rewrite length_fmap, <- list_fmap_compose | done].
    by rewrite <- list_fmap_compose.
  - rewrite (symbology_gdf_range_index _ param limit); [|
      by rewrite length_fmap, <- list_fmap_compose | done].
    by rewrite <- list_fmap_compose.
Qed.

Lemma symbology_gdf_idempotent_witness :
  symbology_gdf
    (symbology_gdf [mk_point 0 () 5.5%float None None;
                    mk_point 1 () 11%float (Some "#000000"%string) None]
       "CO").1 "CO"
  = symbology_gdf [mk_point 0 () 5.5%float None None;
                   mk_point 1 () 11%float (Some "#000000"%string) None] "CO".
Proof.
  refine (proj1 (symbology_gdf_idempotent
                   [mk_point 0 () 5.5%float None None;
                    mk_point 1 () 11%float (Some "#000000"%string) None]
                   "CO" 16.5%float _ _)); reflexivity.
Defined.

(** ** [week_average]: the rows of the table *)

Lemma rmapM_Forall2 {A B} (f : A → result B) (l : list A) (t : list B) :
  rmapM f l = Ok t → Forall2 (λ x y, f x = Ok y) l t.
Proof.
  revert t. induction l as [|x l IH]; intros t; cbn.
  - intros [= <-]. constructor.
  - destruct (f x) as [y|e] eqn:Hy; cbn; [|done].
    destruct (rmapM f l) as [ys|e] eqn:Hys; cbn; [|done].
    intros [= <-]. constructor; [done|]. by apply IH.
Qed.

Lemma bind_length_const {A B} (f : A → list B) (l : list A) (n : nat) :
  (∀ x, length (f x) = n) → length (l ≫= f) = (length l * n)%nat.
Proof.
  intros Hf. induction l as [|x l IH]; [done|].
  rewrite bind_cons, length_app, Hf, IH. cbn. lia.
Qed.

Lemma scaffold_keys_length year params ests :
  length (scaffold_keys year params ests)
  = (length year * (52 * (length params * length ests)))%nat.
Proof.
  unfold scaffold_keys.
  apply bind_length_const. intros y.
  rewrite (bind_length_const _ _ (length params * length ests)%nat);
    [by rewrite length_seq|].
  intros s. apply bind_length_const. intros p.
  rewrite (bind_length_const _ _ 1%nat); [lia|done].
Qed.

Lemma loc_set_CONC_frame s y p est v df_week :
  week_frame <$> loc_set_CONC s y p est v df_week = week_frame <$> df_week.
Proof.
  unfold loc_set_CONC. rewrite <- list_fmap_compose.
  apply list_fmap_ext. intros _ r _. cbn.
  by destruct (week_mask s y p est r).
Qed.

Lemma loc_set_DESV_EST_frame s y p est v df_week :
  week_frame <$> loc_set_DESV_EST s y p est v df_week = week_frame <$> df_week.
Proof.
  unfold loc_set_DESV_EST. rewrite <- list_fmap_compose.
  apply list_fmap_ext. intros _ r _. cbn.
  by destruct (week_mask s y p est r).
Qed.

Lemma foldl_invariant {A B C} (f : A → B → A) (g : A → C) (l : list B)
    (a : A) :
  (∀ a x, g (f a x) = g a) → g (foldl f a l) = g a.
Proof.
  intros H. revert a. induction l as [|x l IH]; intros a; [done|].
  cbn. by rewrite IH, H.
Qed.

Section WeekAverageRows.
Variables series_mean series_std : list float → float.

Lemma write_window_frame p est df_analysis i df_week :
  week_frame <$> write_window series_mean series_std p est df_analysis i
                   df_week
  = week_frame <$> df_week.
Proof.
  unfold write_window. destruct (df_analysis !! (7 * i + 3)%nat); [|done].
  by rewrite loc_set_DESV_EST_frame, loc_set_CONC_frame.
Qed.

Lemma write_windows_frame df p est df_week :
  week_frame <$> write_windows series_mean series_std df p est df_week
  = week_frame <$> df_week.
Proof.
  unfold write_windows.
  apply (foldl_invariant _ (fmap week_frame)).
  intros t i. apply write_window_frame.
Qed.

(** The table returned has the frame of the scaffold. *)
Lemma week_average_frame df station interval year_start year_end :
  ∃ df_week t,
    scaffold df (seqZ year_start (year_end + 1 - year_start)) = Ok df_week
    ∧ week_average series_mean series_std df station interval
        year_start year_end = Ok t
    ∧ week_frame <$> t = week_frame <$> df_week.
Proof.
  destruct (week_average_spec series_mean series_std df station interval
              year_start year_end) as (df_week & Hs & _ & Hrun & _).
  eexists df_week, _. split; [done|]. split; [exact Hrun|].
  apply (foldl_invariant _ (fmap week_frame)). intros t p.
  apply (foldl_invariant _ (fmap week_frame)). intros t' est.
  apply write_windows_frame.
Qed.

End WeekAverageRows.

Lemma scaffold_rows df year df_week :
  scaffold df year = Ok df_week →
  Forall2 (λ k r,
             week_key r = scaffold_key k
             ∧ first_of LONG (k.2) df = Ok (W_LONG r)
             ∧ first_of LAT (k.2) df = Ok (W_LAT r)
             ∧ PrimFloat.is_nan (W_CONC r) = true
             ∧ PrimFloat.is_nan (DESV_EST r) = true)
          (scaffold_keys year (unique (PARAM <$> df)) (unique (EST <$> df)))
          df_week.
Proof.
  intros H%rmapM_Forall2. eapply Forall2_impl; [exact H|].
  intros [[[y s] p] est] r. cbn.
  destruct (first_of LONG est df) as [x|e]; cbn; [|done].
  destruct (first_of LAT est df) as [x'|e]; cbn; [|done].
  by intros [= <-].
Qed.

(** X11.  The table that [week_average] returns has one row for every
    year of [year_start .. year_end], every week 1 .. 52, every
    pollutant and every station of the input, in this nesting order and
    with the labels ['S<week>'] and ['S<week>-<year>']: that is
    [52 * years * pollutants * stations] rows, whatever the number of
    observations, and none when the year range or the input is empty. *)
Theorem week_average_rows (series_mean series_std : list float → float)
    (df : list obs) (station : string) (interval : nat)
    (year_start year_end : Z) :
  ∃ t,
    week_average series_mean series_std df station interval
      year_start year_end = Ok t
    ∧ week_key <$> t
      = scaffold_key
          <$> scaffold_keys (seqZ year_start (year_end + 1 - year_start))
                (unique (PARAM <$> df)) (unique (EST <$> df))
    ∧ length t
      = (Z.to_nat (year_end + 1 - year_start)
         * (52 * (length (unique (PARAM <$> df))
                  * length (unique (EST <$> df)))))%nat
    ∧ (year_end < year_start → t = [])
    ∧ (df = [] → t = []).
Proof.
  destruct (week_average_frame series_mean series_std df station interval
              year_start year_end) as (df_week & t & Hs & Hrun & Hframe).
  exists t. split; [done|].
  assert (Hkeys : week_key <$> t
    = scaffold_key
        <$> scaffold_keys (seqZ year_start (year_end + 1 - year_start))
              (unique (PARAM <$> df)) (unique (EST <$> df))).
  { transitivity (week_key <$> df_week).
    - apply (f_equal (fmap (λ f : string * string * string * string
                                  * float * float, f.1.1))) in Hframe.
      by rewrite <- !list_fmap_compose in Hframe.
    - apply scaffold_rows in Hs. clear Hrun Hframe.
      induction Hs as [|k r ks rs (Hk & _) _ IH]; [done|].
      cbn. by rewrite Hk, IH. }
  assert (Hlen : length t
    = (Z.to_nat (year_end + 1 - year_start)
       * (52 * (length (unique (PARAM <$> df))
                * length (unique (EST <$> df)))))%nat).
  { rewrite <- (length_fmap week_key), Hkeys, length_fmap,
      scaffold_keys_length. by rewrite length_seqZ. }
  repeat split; [done..| |].
  - intros Hlt. apply length_zero_iff_nil. rewrite Hlen.
    replace (Z.to_nat (year_end + 1 - year_start)) with 0%nat by lia. done.
  - intros ->. apply length_zero_iff_nil. rewrite Hlen. cbn. lia.
Qed.

(** X12.  Every row of the table carries the coordinates of the first
    observation of its station in the input, and the coordinates of the
    later observations of that station are not looked at. *)
Theorem week_average_coordinates (series_mean series_std : list float → float)
    (df : list obs) (station : string) (interval : nat)
    (year_start year_end : Z) :
  ∃ t,
    week_average series_mean series_std df station interval
      year_start year_end = Ok t
    ∧ Forall (λ r, ∃ o,
                head (filter (λ o, EST o = W_EST r) df) = Some o
                ∧ W_LONG r = LONG o ∧ W_LAT r = LAT o) t.
Proof.
  destruct (week_average_frame series_mean series_std df station interval
              year_start year_end) as (df_week & t & Hs & Hrun & Hframe).
  exists t. split; [done|].
  assert (Hscaffold : Forall (λ r, ∃ o,
            head (filter (λ o, EST o = W_EST r) df) = Some o
            ∧ W_LONG r = LONG o ∧ W_LAT r = LAT o) df_week).
  { apply scaffold_rows in Hs. clear Hrun Hframe.
    induction Hs as [|k r ks rs (Hk & Hlong & Hlat & _) _ IH];
      [constructor|].
    constructor; [|exact IH].
    destruct k as [[[y s] p] est]. cbn in *.
    injection Hk as _ _ _ Hest. rewrite Hest.
    unfold first_of in *.
    destruct (filter (λ o, EST o = est) df) as [|o l]; [done|].
    exists o. cbn. split; [done|]. split; congruence. }
  clear Hs Hrun.
  revert t Hframe. induction Hscaffold as [|r rs Hr _ IH]; intros t Hframe.
  - apply fmap_nil_inv in Hframe. subst t. constructor.
  - destruct t as [|r' t]; [done|]. cbn in Hframe.
    injection Hframe as H1 H2 H3 H4 H5 H6 Hrest.
    constructor; [|by apply IH].
    destruct Hr as (o & Ho & Hx & Hy). exists o.
    rewrite H4, H5, H6. done.
Qed.

(** ** [week_average]: which window reaches which row *)

Lemma week_year_id_inj s y1 y2 :
  week_year_id s y1 = week_year_id s y2 → y1 = y2.
Proof.
  unfold week_year_id.
  intros H%(inj (String.append "S"))%(inj (String.append (pretty s)))
          %(inj (String.append "-")).
  by apply (inj pretty) in H.
Qed.

Lemma week_mask_year_outside year_start year_end s y p est r :
  year_labelled year_start year_end r →
  ¬ (year_start <= y <= year_end) →
  week_mask s y p est r = false.
Proof.
  intros (y0 & s0 & Hy0 & Hid & Hyear) Hout. unfold week_mask.
  destruct (decide (S_ID r = week_id s)) as [Heq|Hne].
  - rewrite Hid in Heq. apply week_id_inj in Heq as ->.
    rewrite (bool_decide_eq_false_2 (S_YEAR r = week_year_id s y));
      [by rewrite andb_false_r|].
    rewrite Hyear. intros H%week_year_id_inj. lia.
  - by rewrite (bool_decide_eq_false_2 _ Hne).
Qed.

Lemma scaffold_keys_year year params ests y s p est :
  (y, s, p, est) ∈ scaffold_keys year params ests → y ∈ year.
Proof.
  unfold scaffold_keys.
  intros (y' & Hk & Hy)%list_elem_of_bind.
  apply list_elem_of_bind in Hk as (s' & Hk & _).
  apply list_elem_of_bind in Hk as (p' & Hk & _).
  apply list_elem_of_bind in Hk as (est' & Hk & _).
  apply list_elem_of_singleton in Hk. by injection Hk as -> -> -> ->.
Qed.

Lemma scaffold_year_labelled df year_start year_end df_week :
  scaffold df (seqZ year_start (year_end + 1 - year_start)) = Ok df_week →
  Forall (year_labelled year_start year_end) df_week.
Proof.
  intros H%scaffold_rows.
  assert (Hin : ∀ k,
    k ∈ scaffold_keys (seqZ year_start (year_end + 1 - year_start))
          (unique (PARAM <$> df)) (unique (EST <$> df)) →
    year_start <= k.1.1.1 <= year_end).
  { intros [[[y s] p] est] Hk%scaffold_keys_year%elem_of_seqZ. cbn. lia. }
  revert H Hin.
  generalize (scaffold_keys (seqZ year_start (year_end + 1 - year_start))
                (unique (PARAM <$> df)) (unique (EST <$> df))).
  intros keys H. induction H as [|k r ks rs (Hkey & _) _ IH]; intros Hin;
    constructor.
  - specialize (Hin k ltac:(left)).
    destruct k as [[[y s] p] est]. injection Hkey as Hid Hyear _ _.
    by exists y, s.
  - apply IH. intros k' Hk'. apply Hin. by right.
Qed.

Lemma loc_set_CONC_year_outside year_start year_end s y p est v df_week :
  Forall (year_labelled year_start year_end) df_week →
  ¬ (year_start <= y <= year_end) →
  loc_set_CONC s y p est v df_week = df_week
  ∧ loc_set_DESV_EST s y p est v df_week = df_week.
Proof.
  intros H Hout. unfold loc_set_CONC, loc_set_DESV_EST.
  split; rewrite <- (list_fmap_id df_week) at 2;
    apply Forall_fmap_ext; (eapply Forall_impl; [exact H|]);
    intros r Hr; cbn;
    by rewrite (week_mask_year_outside year_start year_end s y p est r).
Qed.

Section WeekAverageWindows.
Variables series_mean series_std : list float → float.

Lemma write_window_year_outside year_start year_end p est df_analysis i
    df_week :
  Forall (year_labelled year_start year_end) df_week →
  (∀ o, o ∈ df_analysis →
        ¬ (year_start <= dt_year (FECHA o) <= year_end)) →
  write_window series_mean series_std p est df_analysis i df_week = df_week.
Proof.
  intros H Hout. unfold write_window.
  destruct (df_analysis !! (7 * i + 3)%nat) as [row|] eqn:Hrow; [|done].
  apply list_elem_of_lookup_2, Hout in Hrow.
  destruct (loc_set_CONC_year_outside year_start year_end (week_label i)
              (dt_year (FECHA row)) p est
              (series_mean (CONC <$> window 7 i df_analysis)) df_week H Hrow)
    as [-> _].
  by destruct (loc_set_CONC_year_outside year_start year_end (week_label i)
              (dt_year (FECHA row)) p est
              (series_std (CONC <$> window 7 i df_analysis)) df_week H Hrow)
    as [_ ->].
Qed.

Lemma write_windows_year_outside year_start year_end df p est df_week :
  Forall (year_labelled year_start year_end) df_week →
  (∀ o, o ∈ df → ¬ (year_start <= dt_year (FECHA o) <= year_end)) →
  write_windows series_mean series_std df p est df_week = df_week.
Proof.
  intros H Hout. unfold write_windows.
  set (df_analysis := filter (λ r, PARAM r = p ∧ EST r = est) df).
  assert (Hsub : ∀ o, o ∈ df_analysis →
            ¬ (year_start <= dt_year (FECHA o) <= year_end)).
  { intros o [_ Ho]%list_elem_of_filter. by apply Hout. }
  generalize (seq 0 ((length df_analysis + 3) / 7)). intros l.
  induction l as [|i l IH]; [done|].
  cbn [foldl].
  by rewrite (write_window_year_outside year_start year_end).
Qed.

End WeekAverageWindows.

(** X13.  When no observation of the input is dated in a year of
    [year_start .. year_end], no window reaches the table:
    [week_average] returns the pre-allocated rows, each with a mean and
    a standard deviation that are still NaN. *)
Theorem week_average_years_outside
    (series_mean series_std : list float → float)
    (df : list obs) (station : string) (interval : nat)
    (year_start year_end : Z) :
  (∀ o, o ∈ df → ¬ (year_start <= dt_year (FECHA o) <= year_end)) →
  ∃ t,
    week_average series_mean series_std df station interval
      year_start year_end = Ok t
    ∧ scaffold df (seqZ year_start (year_end + 1 - year_start)) = Ok t
    ∧ Forall (λ r, PrimFloat.is_nan (W_CONC r) = true
                   ∧ PrimFloat.is_nan (DESV_EST r) = true) t.
Proof.
  intros Hout.
  destruct (week_average_spec series_mean series_std df station interval
              year_start year_end) as (df_week & Hs & _ & Hrun & _).
  pose proof (scaffold_year_labelled df year_start year_end df_week Hs)
    as Hlab.
  exists df_week. split; [|split; [done|]].
  - rewrite Hrun. f_equal.
    generalize (unique (PARAM <$> df)). intros ps.
    induction ps as [|p ps IH]; [done|]. cbn [foldl].
    assert (Hp : foldl (λ df_week est,
                   write_windows series_mean series_std df p est df_week)
                 df_week (unique (EST <$> df)) = df_week).
    { generalize (unique (EST <$> df)). intros es.
      induction es as [|est es IHes]; [done|]. cbn [foldl].
      by rewrite (write_windows_year_outside series_mean series_std
                    year_start year_end). }
    by rewrite Hp.
  - apply scaffold_rows in Hs. clear Hrun Hlab.
    induction Hs as [|k r ks rs (_ & _ & _ & Hc & Hd) _ IH];
      constructor; [done|exact IH].
Qed.

(** Four days of January 2018, for a table of 2019 and 2020. *)
Lemma week_average_years_outside_witness :
  ∃ t,
    week_average sample_mean sample_std four_days "SIMAJ" 7 2019 2020 = Ok t
    ∧ scaffold four_days (seqZ 2019 (2020 + 1 - 2019)) = Ok t
    ∧ length t = 104%nat.
Proof.
  destruct (week_average_years_outside sample_mean sample_std four_days
              "SIMAJ" 7 2019 2020) as (t & Hrun & Hs & _).
  - unfold four_days. intros o Ho.
    repeat (apply elem_of_cons in Ho as [-> | Ho];
            [vm_compute; intros [H _]; by apply H|]).
    by apply elem_of_nil in Ho.
  - exists t. split; [done|]. split; [done|].
    vm_compute in Hs. by injection Hs as <-.
Defined.

(** X14.  For one pollutant and station, the loop over the windows
    leaves each row of the table with the mean and the standard
    deviation of the last window, in the order of the series, whose
    week label, year, pollutant and station are those of the row; a row
    that no window selects is left as it was.  Earlier windows with the
    same week and year are overwritten. *)
Theorem week_pair_last_window (series_mean series_std : list float → float)
    (df : list obs) (p est : string) (df_week : list week_row) :
  let df_analysis := filter (λ r, PARAM r = p ∧ EST r = est) df in
  let divide := py_round_div (length df_analysis) 7 in
  week_pair series_mean series_std 7 df p est df_week
  = Ok (last_window_row series_mean series_std p est df_analysis divide
          <$> df_week).
Proof.
  intros df_analysis divide. rewrite week_pair_spec. f_equal.
  unfold write_windows. fold df_analysis.
  rewrite <- py_round_div_7. fold divide.
  apply write_windows_last.
Qed.

(** ** [restructure_database]: the coordinates of the stations *)



Section Coordinates.
Context {A : Type}.
Implicit Types (df : list (simaj_row A)) (r : simaj_row A).










End Coordinates.


(** A directory with one file of each interval and a file that is no
    table, read for the hourly interval and for one that no file has;
    and a directory without tables. *)
Example restructure_database_run :
  let estaciones := [mk_station "CEN" (-103.33) 20.67;
                     mk_station "TLA" (-103.31) 20.64]%float in
  let hour := [mk_simaj_row 12%float "TLA" None None;
               mk_simaj_row 15%float "OBL" None None] in
  let day := [mk_simaj_row 9%float "CEN" None None] in
  let listdir := [("2014_hour.csv", hour); ("notes.txt", []);
                  ("2014_day.csv", day)]%string in
  restructure_database "hour" estaciones listdir
  = Ok (long_rows
          [mk_simaj_row 12%float "TLA" (Some (-103.31)%float)
             (Some 20.64%float);
           mk_simaj_row 15%float "OBL" None None])
  ∧ restructure_database "week" estaciones listdir = Raise AttributeError
  ∧ restructure_database "hour" estaciones [("notes.txt"%string, hour)]
    = Raise UnboundLocalError.
Proof. repeat split; vm_compute; reflexivity. Qed.
